(** * prmon: change detection, polling and TUI coordination

    A shallow embedding of
      - internal/client/github/change_checker.go
      - internal/client/github/poller.go and the summary collection of the
        same package
      - internal/pkg/tui: controller.go, statusbar.go, the table and the
        pull request rows
      - the main function of the tui command, as far as it connects the
        poller with the controller

    Go strings are [string], slices are [list], the map used as a set is a
    [gmap string ()], [int] is [Z].  Closures are Rocq functions.  A method
    with a pointer receiver takes the object and returns the updated object;
    a method with a value receiver works on a copy, which the caller never
    sees. *)

From Stdlib Require Import ZArith.
From stdpp Require Import base gmap strings list fin_maps pretty.

Local Open Scope string_scope.

(** ** Package github *)
Module Github.

(** *** change_checker.go *)

(** [type keyChecker func([]string) bool]: true means "the keys match". *)
Definition keyChecker : Type := list string → bool.

(** [type keyCheckerGen func([]string) keyChecker] *)
Definition keyCheckerGen : Type := list string → keyChecker.

(** [for _, item := range keyList { keyPresentMap[item] = struct{}{} }] *)
Fixpoint fill_keyPresentMap (keyList : list string) (keyPresentMap : gmap string ())
  : gmap string () :=
  match keyList with
  | [] => keyPresentMap
  | item :: rest => fill_keyPresentMap rest (<[item := ()]> keyPresentMap)
  end.

(** [for _, key := range newKeylist { if _, isPresent := keyPresentMap[key];
    !isPresent { return false } }; return true] *)
Fixpoint all_keys_present (keyPresentMap : gmap string ()) (newKeylist : list string)
  : bool :=
  match newKeylist with
  | [] => true
  | key :: rest =>
      match keyPresentMap !! key with
      | None => false
      | Some _ => all_keys_present keyPresentMap rest
      end
  end.

(** [DEFAULT_KEY_CHECKER]: the map is built once, when the generator runs;
    the returned closure captures it together with [keyList]. *)
Definition DEFAULT_KEY_CHECKER : keyCheckerGen :=
  fun keyList =>
    let keyPresentMap := fill_keyPresentMap keyList ∅ in
    fun newKeylist =>
      if negb (length newKeylist =? length keyList)%nat then false
      else all_keys_present keyPresentMap newKeylist.

(** [for idx, val := range keylist { if val != newKeylist[idx] { return false } }
    return true].  The loop runs after the length check, so [newKeylist[idx]]
    is in range; the second list running out first is the index panic of the
    source, which the length check excludes, and is given [false] here. *)
Fixpoint pairwise_identical (keylist newKeylist : list string) : bool :=
  match keylist, newKeylist with
  | [], _ => true
  | val :: rest, new_val :: new_rest =>
      if bool_decide (val ≠ new_val) then false
      else pairwise_identical rest new_rest
  | _ :: _, [] => false
  end.

(** [SIMPLE_KEY_CHECKER] *)
Definition SIMPLE_KEY_CHECKER : keyCheckerGen :=
  fun keylist newKeylist =>
    if negb (length newKeylist =? length keylist)%nat then false
    else pairwise_identical keylist newKeylist.

(** [type ChangeChecker struct] *)
Record ChangeChecker : Type := mkChangeChecker {
  genKeyChecker : keyCheckerGen;
  keyChecker_of : keyChecker;
}.

(** [type ChangeCheckableCollection interface { VersionKeys() []string }] *)
Class ChangeCheckableCollection (C : Type) : Type :=
  VersionKeys : C → list string.

(** [NewChangeChecker]; a nil generator is [None]. *)
Definition NewChangeChecker `{ChangeCheckableCollection C}
    (items : C) (gen : option keyCheckerGen) : ChangeChecker :=
  let gen := match gen with
             | None => DEFAULT_KEY_CHECKER
             | Some g => g
             end in
  {| genKeyChecker := gen; keyChecker_of := gen (VersionKeys items) |}.

(** [func (cache ChangeChecker) HasChanged(items) bool].

    The receiver is a value: [cache] is the callee's own copy of the struct.
    The result pairs the returned boolean with that copy as it stands when the
    method returns; the copy is dropped at the call site, the caller's
    [ChangeChecker] is not touched. *)
Definition HasChanged `{ChangeCheckableCollection C}
    (cache : ChangeChecker) (items : C) : bool * ChangeChecker :=
  let keyList := VersionKeys items in
  if keyChecker_of cache keyList then
    (false, cache)
  else
    (true, {| genKeyChecker := genKeyChecker cache;
              keyChecker_of := genKeyChecker cache keyList |}).

(** A bare key list is itself a checkable collection: its keys are its
    elements. *)
#[export] Instance keys_checkable : ChangeCheckableCollection (list string) :=
  fun keys => keys.

(** *** poller.go: the summary entity and its collection *)

(** [time.Time], kept to whole seconds: the seconds elapsed since the zero
    value of the type (00:00:00 on 1 January of year 1), read in the value's
    own location.  The zero value is [0]. *)
Definition Time : Type := Z.
Definition zero_Time : Time := 0%Z.

(** [type PullRequestSummary struct] *)
Record PullRequestSummary : Type := mkPullRequestSummary {
  Draft : bool;
  Author : string;
  Title : string;
  Repository : string;
  ID : string;
  ReviewerCount : Z;
  Status : string;
  OpenedAt : Time;
  URL : string;
}.

(** [versionKey]: [fmt.Sprintf("%s:%s:%s:%s", Repository, ID, Status, draftStr)] *)
Definition versionKey (pr : PullRequestSummary) : string :=
  let draftStr := if Draft pr then "Y" else "N" in
  Repository pr +:+ ":" +:+ ID pr +:+ ":" +:+ Status pr +:+ ":" +:+ draftStr.

(** [type PullRequestSummaryCollection struct].  [dirtyChecker] is a pointer
    to a checker only this collection refers to; the field holds the pointee. *)
Record PullRequestSummaryCollection : Type := mkCollection {
  dirtyChecker : ChangeChecker;
  Items : list PullRequestSummary;
}.

(** [VersionKeys] of the collection, and of a bare item slice (what the
    collection under construction holds before its checker exists). *)
Definition item_keys (items : list PullRequestSummary) : list string :=
  map versionKey items.

#[export] Instance items_checkable : ChangeCheckableCollection (list PullRequestSummary) :=
  item_keys.

#[export] Instance collection_checkable
  : ChangeCheckableCollection PullRequestSummaryCollection :=
  fun collection => item_keys (Items collection).

(** [NewPullRequestSummaryCollection]: the checker is built from the
    collection's items with a nil generator. *)
Definition NewPullRequestSummaryCollection (items : list PullRequestSummary)
  : PullRequestSummaryCollection :=
  {| Items := items; dirtyChecker := NewChangeChecker items None |}.

(** [Update]: the items are replaced, then [HasChanged] is called on the
    pointee of [dirtyChecker].  [HasChanged] has a value receiver, so the call
    copies the checker; the copy it may have modified is discarded. *)
Definition Update (collection : PullRequestSummaryCollection)
    (latestItems : list PullRequestSummary) : bool * PullRequestSummaryCollection :=
  let collection := {| dirtyChecker := dirtyChecker collection;
                       Items := latestItems |} in
  let '(changed, _) := HasChanged (dirtyChecker collection) collection in
  (changed, collection).

(** *** poller.go: the remote API, as far as the poller reads it *)

(** What the poller reads of a [github.Issue] and of a [github.PullRequest];
    both types belong to the go-github client library. *)
Record Issue : Type := mkIssue {
  IsPullRequest : bool;
  RepositoryOwnerLogin : string;
  RepositoryName : string;
  Number : Z;
  IssueTitle : string;
  UserLogin : string;
  IssueState : string;
  CreatedAt : Time;
}.

Record PullRequest : Type := mkPullRequest {
  GetDraft : bool;
  GetHTMLURL : string;
}.

(** A Go [error] value that is not nil. *)
Definition error : Type := string.

(** The answers of the remote service during one round of requests:
    [client.Issues.List] per filter and [client.PullRequests.Get] per
    (owner, repository, number); [inr] is a non-nil [err]. *)
Record Remote : Type := mkRemote {
  Issues_List : string → list Issue + error;
  PullRequests_Get : string → string → Z → PullRequest + error;
}.

(** A call either returns or panics. *)
Inductive Outcome (A : Type) : Type :=
  | Returned (a : A)
  | Panicked (err : error).
Arguments Returned {A} a.
Arguments Panicked {A} err.

#[export] Instance Outcome_ret : MRet Outcome := @Returned.
#[export] Instance Outcome_bind : MBind Outcome := fun A B f m =>
  match m with
  | Returned a => f a
  | Panicked err => Panicked err
  end.

Definition ASSIGNED_FILTER : string := "all".
Definition CREATED_FILTER : string := "created".

(** [NewPullRequestFromAPI]; [ReviewerCount] is not set and keeps its zero
    value, [ID] is [strconv.Itoa] of the issue number. *)
Definition NewPullRequestFromAPI (issue : Issue) (pr : PullRequest)
  : PullRequestSummary :=
  {| Draft := GetDraft pr;
     Author := UserLogin issue;
     Title := IssueTitle issue;
     Repository := RepositoryName issue;
     ID := pretty (Number issue);
     ReviewerCount := 0;
     Status := IssueState issue;
     OpenedAt := CreatedAt issue;
     URL := GetHTMLURL pr |}.

(** The [for _, issue := range issues] loop of the closure [get]: an issue
    that is a pull request is appended when its second request succeeds, and
    skipped without a trace when that request fails. *)
Fixpoint collect_pull_requests (remote : Remote) (issues : list Issue)
    (collection : list PullRequestSummary) : list PullRequestSummary :=
  match issues with
  | [] => collection
  | issue :: rest =>
      let collection :=
        if IsPullRequest issue then
          match PullRequests_Get remote (RepositoryOwnerLogin issue)
                  (RepositoryName issue) (Number issue) with
          | inl pullRequest =>
              (collection ++ [NewPullRequestFromAPI issue pullRequest])%list
          | inr _ => collection
          end
        else collection in
      collect_pull_requests remote rest collection
  end.

(** The closure [get] of [pullRequests]: [panic(err)] when the list request
    fails. *)
Definition get (remote : Remote) (collection : list PullRequestSummary)
    (filterString : string) : Outcome (list PullRequestSummary) :=
  match Issues_List remote filterString with
  | inr err => Panicked err
  | inl issues => Returned (collect_pull_requests remote issues collection)
  end.

(** [pullRequests]: the two operands of the [return] are evaluated left to
    right. *)
Definition pullRequests (remote : Remote) (assignedFilterQuery createdFilterQuery : string)
  : Outcome (list PullRequestSummary * list PullRequestSummary) :=
  assigned ← get remote [] assignedFilterQuery;
  created ← get remote [] createdFilterQuery;
  mret (assigned, created).

(** [type Poller struct]; the mutex, the context and the client handle carry
    no data of their own. *)
Record Poller : Type := mkPoller {
  LastPolled : Time;
  Username : string;
  AssignedPullRequests : PullRequestSummaryCollection;
  CreatedPullRequests : PullRequestSummaryCollection;
}.

(** [NewPoller]; [currentUser] is the answer of [Users.Get]. *)
Definition NewPoller (currentUser : string + error) (remote : Remote) (now : Time)
  : Outcome Poller :=
  match currentUser with
  | inr err => Panicked err
  | inl login =>
      '(assigned, created) ← pullRequests remote ASSIGNED_FILTER CREATED_FILTER;
      mret {| LastPolled := now;
              Username := login;
              AssignedPullRequests := NewPullRequestSummaryCollection assigned;
              CreatedPullRequests := NewPullRequestSummaryCollection created |}
  end.

(** *** poller.go: the polling loop *)

(** A completed send on one of the two channels of
    [PollerNotificationChannels]. *)
Inductive Notification : Type :=
  | LatestPollTimestamp (t : Time)
  | NewDataAvailable.

#[export] Instance Notification_eq_dec : EqDecision Notification.
Proof. solve_decision. Defined.

(** What the loop acts on: the poller behind the pointer receiver, and the
    sends completed so far, oldest first.  Both channels are unbuffered; the
    loop is described against a receiver that takes every send. *)
Record PollState : Type := mkPollState {
  poller_of : Poller;
  sent : list Notification;
}.

(** Code that may change the poll state and may panic; a panic leaves the
    state as it was when it was raised. *)
Definition Poll_M (A : Type) : Type := PollState → Outcome A * PollState.

#[export] Instance Poll_M_ret : MRet Poll_M := fun A a st => (Returned a, st).
#[export] Instance Poll_M_bind : MBind Poll_M := fun A B f m st =>
  match m st with
  | (Returned a, st') => f a st'
  | (Panicked err, st') => (Panicked err, st')
  end.

Definition lift_Outcome {A} (o : Outcome A) : Poll_M A := fun st => (o, st).

(** [ch <- v], once a receiver has taken the value.  The channels are
    unbuffered and the send is not raced against [ctx.Done()]: a send nobody
    receives parks the loop for good, and a run that ends so is not among the
    runs described here. *)
Definition send (n : Notification) : Poll_M () := fun st =>
  (Returned (), {| poller_of := poller_of st; sent := (sent st ++ [n])%list |}).

(** [poller.AssignedPullRequests.Update(assigned)] *)
Definition update_assigned (assigned : list PullRequestSummary) : Poll_M bool :=
  fun st =>
    let poller := poller_of st in
    let '(changed, collection) := Update (AssignedPullRequests poller) assigned in
    (Returned changed,
     {| poller_of := {| LastPolled := LastPolled poller;
                        Username := Username poller;
                        AssignedPullRequests := collection;
                        CreatedPullRequests := CreatedPullRequests poller |};
        sent := sent st |}).

(** [poller.CreatedPullRequests.Update(created)] *)
Definition update_created (created : list PullRequestSummary) : Poll_M bool :=
  fun st =>
    let poller := poller_of st in
    let '(changed, collection) := Update (CreatedPullRequests poller) created in
    (Returned changed,
     {| poller_of := {| LastPolled := LastPolled poller;
                        Username := Username poller;
                        AssignedPullRequests := AssignedPullRequests poller;
                        CreatedPullRequests := collection |};
        sent := sent st |}).

(** The body of [case <-time.After(pauseInterval):] in [Poll]; [remote] is
    what the service answers during this iteration and [now] what
    [time.Now()] reads.  [Lock] and [Unlock] bracket the two updates and the
    second send. *)
Definition poll_iteration (remote : Remote) (now : Time) : Poll_M () :=
  '(assigned, created) ← lift_Outcome (pullRequests remote ASSIGNED_FILTER CREATED_FILTER);
  _ ← send (LatestPollTimestamp now);
  haveUpdatedAssignations ← update_assigned assigned;
  haveUpdatedCreations ← update_created created;
  if haveUpdatedAssignations || haveUpdatedCreations
  then send NewDataAvailable
  else mret ().

(** Which case of the [select] is taken at the top of an iteration. *)
Inductive SelectCase : Type :=
  | TimerElapsed (remote : Remote) (now : Time)
  | CtxDone.

(** [Poll]: one list element per trip round the [for]; the loop returns on
    [CtxDone], and is still parked at its [select] ([false]) when the list
    runs out first. *)
Fixpoint Poll (cases : list SelectCase) : Poll_M bool :=
  match cases with
  | [] => mret false
  | CtxDone :: _ => mret true
  | TimerElapsed remote now :: rest =>
      _ ← poll_iteration remote now;
      Poll rest
  end.

End Github.

(** ** Package tui *)
Module Tui.
Import Github.

(** *** The widgets of the tview library *)

(** The text a cell shows.  [DurationText n] is what the durafmt library
    prints for [n] seconds, cut to its first three units. *)
Inductive CellText : Type :=
  | Plain (s : string)
  | DurationText (seconds : Z).

(** A [tview.TableCell]: its text, its reference and its expansion; colours,
    alignment and text attributes are left out. *)
Record TableCell : Type := mkTableCell {
  Text : CellText;
  Reference : option string;
  Expansion : Z;
}.

(** [tview.NewTableCell(text)] *)
Definition NewTableCell (text : CellText) : TableCell :=
  {| Text := text; Reference := None; Expansion := 0 |}.

(** A [tview.Table]: the cells set so far, by row and column. *)
Abbreviation TviewTable := (gmap (nat * nat) TableCell).

(** [table.SetCell(row, column, cell)] *)
Definition SetCell (row column : nat) (cell : TableCell) (table : TviewTable)
  : TviewTable :=
  <[(row, column) := cell]> table.

(** [table.GetCell(row, column).SetReference(reference)]: a cell of the table
    is changed in place; outside the table the call reaches a detached empty
    cell and changes nothing. *)
Definition SetReference (row column : nat) (reference : string) (table : TviewTable)
  : TviewTable :=
  alter (fun cell => {| Text := Text cell; Reference := Some reference;
                        Expansion := Expansion cell |}) (row, column) table.

(** [table.GetCell(row, column).SetExpansion(expansion)] *)
Definition SetExpansion (row column : nat) (expansion : Z) (table : TviewTable)
  : TviewTable :=
  alter (fun cell => {| Text := Text cell; Reference := Reference cell;
                        Expansion := expansion |}) (row, column) table.

(** [table.GetRowCount()]: one more than the last row that holds a cell. *)
Definition GetRowCount (table : TviewTable) : nat :=
  map_fold (fun key _ count => Nat.max (S (fst key)) count) 0%nat table.

(** *** Pull request rows *)

(** [type PullRequestCollection struct] *)
Record PullRequestCollection : Type := mkPullRequestCollection {
  PullReqs : list PullRequestSummary;
}.

Definition REFERENCE_COLUMN : nat := 0.
Definition EXPANDING_TABLE_COLUMN_IDX : nat := 3.

(** [setReference] *)
Definition setReference (pr : PullRequestSummary) (idx : nat) (table : TviewTable)
  : TviewTable :=
  SetReference idx REFERENCE_COLUMN (URL pr) table.

(** The [for colIdx, colVal := range rowContents] loop of [draftRow]. *)
Fixpoint set_row_from (idx colIdx : nat) (rowContents : list string)
    (table : TviewTable) : TviewTable :=
  match rowContents with
  | [] => table
  | colVal :: rest =>
      set_row_from idx (S colIdx) rest
        (SetCell idx colIdx (NewTableCell (Plain colVal)) table)
  end.

(** [draftRow] *)
Definition draftRow (pr : PullRequestSummary) (idx : nat) (table : TviewTable)
  : TviewTable :=
  set_row_from idx 0
    [Repository pr; ID pr; Author pr; Title pr; "-"; "draft"; "-"] table.

(** [reviewerCountCell], [statusCell] and [openedAtCell], without their
    colours; [now] is what [time.Now()] reads (one reading for all the rows of
    a table).  [Time.Sub] saturates at the largest and the smallest
    [Duration], which [int(since.Seconds())] turns into 9223372036 seconds
    either way of zero; between whole-second times nothing else is cut. *)
Definition reviewerCountCell (pr : PullRequestSummary) : TableCell :=
  NewTableCell (Plain (pretty (ReviewerCount pr))).

Definition statusCell (pr : PullRequestSummary) : TableCell :=
  NewTableCell (Plain (Status pr)).

Definition openedAtCell (now : Time) (pr : PullRequestSummary) : TableCell :=
  let since := Z.max (-9223372036) (Z.min 9223372036 (now - OpenedAt pr)) in
  NewTableCell (DurationText since).

(** [PullRequestRow.Cells] *)
Definition Cells (now : Time) (pr : PullRequestSummary) (idx : nat)
    (table : TviewTable) : TviewTable :=
  if Draft pr then
    setReference pr idx (draftRow pr idx table)
  else
    let table := SetCell idx 0 (NewTableCell (Plain (Repository pr))) table in
    let table := SetCell idx 1 (NewTableCell (Plain (ID pr))) table in
    let table := SetCell idx 2 (NewTableCell (Plain (Author pr))) table in
    let table := SetCell idx 3 (NewTableCell (Plain (Title pr))) table in
    let table := SetCell idx 4 (reviewerCountCell pr) table in
    let table := SetCell idx 5 (statusCell pr) table in
    let table := SetCell idx 6 (openedAtCell now pr) table in
    setReference pr idx table.

(** [for idx, pullReq := range collection.PullReqs { ... .Cells(idx+1, table) }] *)
Fixpoint populate_from (now : Time) (idx : nat) (pullReqs : list PullRequestSummary)
    (table : TviewTable) : TviewTable :=
  match pullReqs with
  | [] => table
  | pullReq :: rest =>
      populate_from now (S idx) rest (Cells now pullReq (idx + 1) table)
  end.

(** *** The table *)

(** [type RowCollection interface], with its one method [PopulateTable] *)
Class RowCollection (R : Type) : Type :=
  PopulateTable : Time → R → TviewTable → TviewTable.

#[export] Instance PullRequestCollection_rows : RowCollection PullRequestCollection :=
  fun now collection table => populate_from now 0 (PullReqs collection) table.

Definition pullRequestColumns : list string :=
  ["Repository"; "ID"; "Author"; "Title"; "Reviewers"; "Status"; "Age"].

(** [type Table struct] *)
Record Table : Type := mkTable {
  Primitive : TviewTable;
  currentRowReference : string;
}.

(** [for rowIdx := 1; rowIdx <= rowCount; rowIdx++ { ... SetExpansion(1) }],
    from [rowIdx] with [remaining] rows still to visit. *)
Fixpoint expand_rows (col rowIdx remaining : nat) (table : TviewTable) : TviewTable :=
  match remaining with
  | O => table
  | S remaining' =>
      expand_rows col (S rowIdx) remaining' (SetExpansion rowIdx col 1 table)
  end.

(** [expandColumn] *)
Definition expandColumn (col : nat) (table : TviewTable) : TviewTable :=
  let rowCount := GetRowCount table in
  expand_rows col 1 rowCount table.

(** [Table.Update]: the header row is written again, the rows of the
    collection are written over what the table holds, and the column is
    expanded; no cell is removed. *)
Definition Table_Update `{RowCollection R} (now : Time) (t : Table) (rows : R)
  : Table :=
  let table := set_row_from 0 0 pullRequestColumns (Primitive t) in
  let table := PopulateTable now rows table in
  {| Primitive := expandColumn EXPANDING_TABLE_COLUMN_IDX table;
     currentRowReference := currentRowReference t |}.

(** [NewTable] *)
Definition NewTable `{RowCollection R} (now : Time) (title : string) (rows : R)
  : Table :=
  Table_Update now {| Primitive := ∅; currentRowReference := "" |} rows.

(** [handlerSelection]; [row] is a Go [int].  [GetCell] on a position without
    a cell answers a detached empty cell, whose reference is nil, and a nil
    reference fails the [ref.(string)] assertion. *)
Definition handlerSelection (t : Table) (row : Z) : Table :=
  let t := {| Primitive := Primitive t; currentRowReference := "" |} in
  if (row <? 1)%Z || (Z.of_nat (GetRowCount (Primitive t)) <? row)%Z then t
  else
    match Primitive t !! (Z.to_nat row, REFERENCE_COLUMN) with
    | Some cell =>
        match Reference cell with
        | Some refString =>
            {| Primitive := Primitive t; currentRowReference := refString |}
        | None => t
        end
    | None => t
    end.

(** A [tcell.EventKey], as far as the handler reads it: its rune. *)
Record EventKey : Type := mkEventKey {
  Rune : Z;
}.

(** The rune ['o']. *)
Definition rune_o : Z := 111.

(** [handlerEventKey]: the event is handed back as it came; the first
    component is the URL given to [browser.OpenURL], if the call is made. *)
Definition handlerEventKey (t : Table) (evt : EventKey) : option string * EventKey :=
  if (Rune evt =? rune_o)%Z then
    if bool_decide (currentRowReference t ≠ "") then (Some (currentRowReference t), evt)
    else (None, evt)
  else (None, evt).

(** *** statusbar.go *)

(** Two decimal digits, as the layout elements [15], [04] and [05] print. *)
Definition two_digits (n : Z) : string :=
  if (n <? 10)%Z then "0" +:+ pretty n else pretty n.

(** [t.Format(STATUS_TIMESTAMP_FORMAT)] with the layout ["15:04:05"] *)
Definition Format_timestamp (t : Time) : string :=
  let secondOfDay := (t mod 86400)%Z in
  two_digits (secondOfDay / 3600) +:+ ":" +:+
  two_digits (secondOfDay mod 3600 / 60) +:+ ":" +:+
  two_digits (secondOfDay mod 60).

(** [fmt.Sprintf(STATUS_FORMAT_STR, username, pollInterval, ...)] *)
Definition status_text (username : string) (pollInterval : Z) (lastSync : Time)
  : string :=
  "[#AAAAAA]Signed in as [::b]" +:+ username +:+
  "[::-]. Polling at [::b]" +:+ pretty pollInterval +:+
  "[::-] minute intervals. (Last synchronised at [::b]" +:+
  Format_timestamp lastSync +:+ "[::-])[-]".

(** [type StatusBar struct]; [StatusText] is the text of the [TextView]. *)
Record StatusBar : Type := mkStatusBar {
  generator : Time → string;
  StatusText : string;
}.

(** [NewStatusBar] *)
Definition NewStatusBar (username : string) (pollInterval : Z) (initialSync : Time)
  : StatusBar :=
  let generator := fun lastSync => status_text username pollInterval lastSync in
  {| generator := generator; StatusText := generator initialSync |}.

(** [StatusBar.Update] *)
Definition StatusBar_Update (sb : StatusBar) (latestSync : Time) : StatusBar :=
  {| generator := generator sb; StatusText := generator sb latestSync |}.

(** *** controller.go *)

(** [type Controller struct] *)
Record Controller : Type := mkController {
  assignedPRTable : Table;
  createdPRTable : Table;
  statusBar : StatusBar;
}.

(** [type State struct]; a nil slice is [[]]. *)
Record State : Type := mkState {
  GithubUsername : string;
  PollInterval : Z;
  Assigned : list PullRequestSummary;
  Created : list PullRequestSummary;
  LastSync : Time;
}.

(** [NewController] *)
Definition NewController (now : Time) (state : State) : Controller :=
  {| assignedPRTable :=
       NewTable now "Assigned Pull Requests" (mkPullRequestCollection (Assigned state));
     createdPRTable :=
       NewTable now "Created Pull Requests" (mkPullRequestCollection (Created state));
     statusBar :=
       NewStatusBar (GithubUsername state) (PollInterval state) (LastSync state) |}.

(** [Controller.Update]: the function handed to [QueueUpdateDraw], run once on
    the UI thread. *)
Definition Controller_Update (now : Time) (tui : Controller) (newState : State)
  : Controller :=
  let tui :=
    if (0 <? length (Assigned newState))%nat then
      {| assignedPRTable :=
           Table_Update now (assignedPRTable tui)
             (mkPullRequestCollection (Assigned newState));
         createdPRTable := createdPRTable tui;
         statusBar := statusBar tui |}
    else tui in
  let tui :=
    if (0 <? length (Created newState))%nat then
      {| assignedPRTable :=
           Table_Update now (assignedPRTable tui)
             (mkPullRequestCollection (Created newState));
         createdPRTable := createdPRTable tui;
         statusBar := statusBar tui |}
    else tui in
  {| assignedPRTable := assignedPRTable tui;
     createdPRTable := createdPRTable tui;
     statusBar := StatusBar_Update (statusBar tui) (LastSync newState) |}.

End Tui.

(** ** The tui command: the bodies of the [select] cases of its dispatch
    loop, and the controller it starts with *)
Module Main.
Import Github Tui.

(** [case latestTimestamp := <-notifyChans.LatestPollTimestamp:] *)
Definition on_LatestPollTimestamp (now : Time) (tuiController : Controller)
    (latestTimestamp : Time) : Controller :=
  Controller_Update now tuiController
    {| GithubUsername := ""; PollInterval := 0; Assigned := []; Created := [];
       LastSync := latestTimestamp |}.

(** [case <-notifyChans.NewDataAvailable:] *)
Definition on_NewDataAvailable (now : Time) (tuiController : Controller)
    (ghPoller : Poller) : Controller :=
  Controller_Update now tuiController
    {| GithubUsername := ""; PollInterval := 0;
       Assigned := Items (AssignedPullRequests ghPoller);
       Created := Items (CreatedPullRequests ghPoller);
       LastSync := zero_Time |}.

(** The controller [app] builds at start-up. *)
Definition initial_controller (now : Time) (ghPoller : Poller) (waitMins : Z)
  : Controller :=
  NewController now
    {| GithubUsername := Username ghPoller;
       PollInterval := waitMins;
       Assigned := Items (AssignedPullRequests ghPoller);
       Created := Items (CreatedPullRequests ghPoller);
       LastSync := LastPolled ghPoller |}.

End Main.

(** ** The mac command: the tray and the loop that toggles it *)
Module Mac.

(** The two icons of the [icons] package. *)
Inductive Icon : Type :=
  | CircleRegular
  | CircleSolid.

(** What the systray library shows. *)
Record Tray : Type := mkTray {
  TrayTitle : string;
  TrayIcon : Icon;
  TrayTooltip : string;
}.

(** The tray [onReady] leaves behind. *)
Definition onReady_tray : Tray :=
  {| TrayTitle := "Empty!"; TrayIcon := CircleRegular;
     TrayTooltip := "What's a tooltip?" |}.

(** Which case of the [select] in [toggle] is taken. *)
Inductive ToggleCase : Type :=
  | ToggleCtxDone
  | ToggleAfter.

(** The [for] of [toggle], with [def] and the tray as they stand at the top
    of an iteration; one list element per iteration. *)
Fixpoint toggle_loop (cases : list ToggleCase) (def : bool) (tray : Tray) : Tray :=
  match cases with
  | [] => tray
  | ToggleCtxDone :: _ => tray
  | ToggleAfter :: rest =>
      let tray :=
        if def then
          {| TrayTitle := "Empty!"; TrayIcon := CircleRegular;
             TrayTooltip := TrayTooltip tray |}
        else
          {| TrayTitle := "Full!"; TrayIcon := CircleSolid;
             TrayTooltip := TrayTooltip tray |} in
      toggle_loop rest (negb def) tray
  end.

(** [toggle]: [def := true] before the loop. *)
Definition toggle (cases : list ToggleCase) (tray : Tray) : Tray :=
  toggle_loop cases true tray.

End Mac.

(** ** Vocabulary of the properties, and sample data *)
Module Samples.
Import Github Tui Main.
Local Open Scope Z_scope.

(** A string holds the separator of the version key, the colon (code 58). *)
Fixpoint has_colon (s : string) : bool :=
  match s with
  | EmptyString => false
  | String c rest => Ascii.eqb c (Ascii.ascii_of_nat 58) || has_colon rest
  end.

(** What one listed issue contributes to a fetched collection. *)
Definition summary_of_issue (remote : Remote) (issue : Issue)
  : option PullRequestSummary :=
  if IsPullRequest issue then
    match PullRequests_Get remote (RepositoryOwnerLogin issue)
            (RepositoryName issue) (Number issue) with
    | inl pullRequest => Some (NewPullRequestFromAPI issue pullRequest)
    | inr _ => None
    end
  else None.

(** The iterations the loop enters: the timers that elapse before the context
    is done, up to and including the first whose fetch panics. *)
Fixpoint iterations_run (cases : list SelectCase) : list (Remote * Time) :=
  match cases with
  | [] => []
  | CtxDone :: _ => []
  | TimerElapsed remote now :: rest =>
      (remote, now) ::
      match pullRequests remote ASSIGNED_FILTER CREATED_FILTER with
      | Panicked _ => []
      | Returned _ => iterations_run rest
      end
  end.


(** A sequence of states applied to a controller, oldest first. *)
Definition Controller_Update_all (now : Time) (tui : Controller)
    (states : list State) : Controller :=
  foldl (Controller_Update now) tui states.

(** The text and the reference of a cell. *)
Definition cell_content (cell : TableCell) : CellText * option string :=
  (Text cell, Reference cell).

(** Two entities agree on the four fields the version key is built from. *)
Definition same_key_fields (pr1 pr2 : PullRequestSummary) : Prop :=
  Repository pr1 = Repository pr2 ∧ ID pr1 = ID pr2 ∧
  Status pr1 = Status pr2 ∧ Draft pr1 = Draft pr2.

(** The notifications an iteration adds to those already sent. *)
Definition sent_during (remote : Remote) (now : Time) (st : PollState)
  : list Notification :=
  drop (length (sent st)) (sent (snd (poll_iteration remote now st))).

Definition pr_open : PullRequestSummary :=
  {| Draft := false; Author := "ann"; Title := "Fix the parser";
     Repository := "a"; ID := "1"; ReviewerCount := 0; Status := "open";
     OpenedAt := 63800000000; URL := "https://example.org/pull" |}.

Definition pr_merged : PullRequestSummary :=
  {| Draft := false; Author := "ann"; Title := "Fix the parser";
     Repository := "a"; ID := "1"; ReviewerCount := 0; Status := "merged";
     OpenedAt := 63800000000; URL := "https://example.org/pull" |}.

Definition pr_retitled : PullRequestSummary :=
  {| Draft := false; Author := "bob"; Title := "Fix the parser, again";
     Repository := "a"; ID := "1"; ReviewerCount := 3; Status := "open";
     OpenedAt := 63800000777; URL := "https://example.org/a/pull/1/files" |}.

Definition pr_other : PullRequestSummary :=
  {| Draft := true; Author := "cat"; Title := "Add a cache";
     Repository := "b"; ID := "7"; ReviewerCount := 0; Status := "open";
     OpenedAt := 63800000500; URL := "https://example.org/b/pull/7" |}.

(** A service that lists one pull request under each filter. *)
Definition issue_of (repo : string) (number : Z) (state : string) : Issue :=
  {| IsPullRequest := true; RepositoryOwnerLogin := "ann";
     RepositoryName := repo; Number := number; IssueTitle := "Fix the parser";
     UserLogin := "ann"; IssueState := state; CreatedAt := 63800000000 |}.

Definition remote_merged : Remote :=
  {| Issues_List := fun filter =>
       if String.eqb filter "created" then inl [issue_of "b" 7 "open"]
       else inl [issue_of "a" 1 "merged"];
     PullRequests_Get := fun _ _ _ =>
       inl {| GetDraft := false; GetHTMLURL := "https://example.org/pull" |} |}.


(** The service while "a"/1 is still open and nothing is listed as created. *)
Definition remote_open : Remote :=
  {| Issues_List := fun filter =>
       if String.eqb filter "created" then inl []
       else inl [issue_of "a" 1 "open"];
     PullRequests_Get := PullRequests_Get remote_merged |}.

(** The same service while "a"/1 is merged. *)
Definition remote_only_merged : Remote :=
  {| Issues_List := fun filter =>
       if String.eqb filter "created" then inl []
       else inl [issue_of "a" 1 "merged"];
     PullRequests_Get := PullRequests_Get remote_merged |}.

Definition poller_open : Poller :=
  {| LastPolled := 63800000100; Username := "ann";
     AssignedPullRequests := NewPullRequestSummaryCollection [pr_open];
     CreatedPullRequests := NewPullRequestSummaryCollection [] |}.

Definition st_open : PollState := {| poller_of := poller_open; sent := [] |}.

(** A listing with a plain issue, a pull request, a pull request whose second
    request fails (number 13), and another pull request. *)
Definition issues_mixed : list Issue :=
  [ {| IsPullRequest := false; RepositoryOwnerLogin := "ann";
       RepositoryName := "z"; Number := 4; IssueTitle := "A question";
       UserLogin := "dan"; IssueState := "open"; CreatedAt := 63800000000 |};
    issue_of "a" 1 "open"; issue_of "c" 13 "open"; issue_of "d" 2 "closed" ].

Definition remote_mixed : Remote :=
  {| Issues_List := fun filter =>
       if String.eqb filter "created" then inl [] else inl issues_mixed;
     PullRequests_Get := fun _ _ number =>
       if (number =? 13)%Z then inr "404 Not Found"
       else inl {| GetDraft := false; GetHTMLURL := "https://example.org/pull" |} |}.

(** A service listing "a"/1 and "b"/7 as assigned, the second a draft. *)
Definition remote_with_draft : Remote :=
  {| Issues_List := fun filter =>
       if String.eqb filter "created" then inl []
       else inl [issue_of "a" 1 "open"; issue_of "b" 7 "open"];
     PullRequests_Get := fun _ _ number =>
       inl {| GetDraft := (number =? 7)%Z;
              GetHTMLURL := "https://example.org/pull" |} |}.

(** The poller after an iteration against [remote_merged], and the
    controller built at start-up from [poller_open]. *)
Definition poller_merged : Poller :=
  poller_of (snd (poll_iteration remote_merged 63800000400 st_open)).

Definition controller_open : Controller :=
  initial_controller 63800000100 poller_open 5.

(** The poller after an iteration against [remote_with_draft]. *)
Definition poller_with_draft : Poller :=
  poller_of (snd (poll_iteration remote_with_draft 63800000400 st_open)).

End Samples.

(** * Properties *)

Import Github Tui Main Samples.

(** ** The two comparison policies *)
Section key_checkers.
Implicit Types (keyList newKeylist : list string) (m : gmap string ()).

Lemma fill_keyPresentMap_lookup keyList m key :
  is_Some (fill_keyPresentMap keyList m !! key) ↔
  key ∈ keyList ∨ is_Some (m !! key).
Proof.
  revert m. induction keyList as [|item rest IH]; intros m; simpl.
  - rewrite elem_of_nil. tauto.
  - rewrite IH, elem_of_cons, lookup_insert.
    case_decide as Heq; subst.
    + split; [intros _; left; by left | intros _; right; eauto].
    + split; [intros [?|?]; auto | intros [[?|?]|?]; auto; congruence].
Qed.

Lemma all_keys_present_spec m newKeylist :
  all_keys_present m newKeylist = true ↔
  ∀ key, key ∈ newKeylist → is_Some (m !! key).
Proof.
  induction newKeylist as [|key rest IH]; simpl.
  - split; [intros _ key; by rewrite elem_of_nil | done].
  - destruct (m !! key) as [u|] eqn:Hkey.
    + rewrite IH. split.
      * intros Hrest k [->|Hk]%elem_of_cons; [by rewrite Hkey | auto].
      * intros Hall k Hk. apply Hall. by right.
    + split; [done|]. intros Hall.
      destruct (Hall key) as [u Hu]; [by left | congruence].
Qed.

(** The default policy accepts exactly the lists of the baseline's length
    whose every key occurs in the baseline. *)
Lemma DEFAULT_KEY_CHECKER_spec keyList newKeylist :
  DEFAULT_KEY_CHECKER keyList newKeylist = true ↔
  length newKeylist = length keyList ∧ ∀ key, key ∈ newKeylist → key ∈ keyList.
Proof.
  unfold DEFAULT_KEY_CHECKER.
  destruct (Nat.eqb_spec (length newKeylist) (length keyList)) as [Hlen|Hlen]; simpl.
  - rewrite all_keys_present_spec. split.
    + intros Hall. split; [done|]. intros key Hkey.
      apply Hall, fill_keyPresentMap_lookup in Hkey as [?|[u Hu]]; [done|].
      by rewrite lookup_empty in Hu.
    + intros [_ Hall] key Hkey. apply fill_keyPresentMap_lookup. left. auto.
  - split; [done | intros [? _]; done].
Qed.

Lemma pairwise_identical_spec keyList newKeylist :
  length newKeylist = length keyList →
  pairwise_identical keyList newKeylist = true ↔ keyList = newKeylist.
Proof.
  revert newKeylist.
  induction keyList as [|val rest IH]; intros [|new_val new_rest]; simpl; try done.
  intros [= Hlen]. case_bool_decide as Hne.
  - split; [done | intros [= ? ?]; done].
  - subst new_val. rewrite (IH _ Hlen).
    split; [by intros -> | by intros [= ->]].
Qed.

(** The simple policy accepts exactly the baseline itself. *)
Lemma SIMPLE_KEY_CHECKER_spec keyList newKeylist :
  SIMPLE_KEY_CHECKER keyList newKeylist = true ↔ keyList = newKeylist.
Proof.
  unfold SIMPLE_KEY_CHECKER.
  destruct (Nat.eqb_spec (length newKeylist) (length keyList)) as [Hlen|Hlen]; simpl.
  - by apply pairwise_identical_spec.
  - split; [done | intros ->; done].
Qed.
End key_checkers.

(** ** The checker and the collection *)

(** The boolean [HasChanged] returns is the negated verdict of the caller's
    comparison function. *)
Lemma HasChanged_fst `{ChangeCheckableCollection C} (cache : ChangeChecker) (items : C) :
  fst (HasChanged cache items) = negb (keyChecker_of cache (VersionKeys items)).
Proof. unfold HasChanged. by destruct (keyChecker_of cache _). Qed.

(** [Update] replaces the items and leaves the checker as it found it. *)
Lemma Update_eq (collection : PullRequestSummaryCollection)
    (latestItems : list PullRequestSummary) :
  Update collection latestItems =
  (negb (keyChecker_of (dirtyChecker collection) (item_keys latestItems)),
   {| dirtyChecker := dirtyChecker collection; Items := latestItems |}).
Proof.
  unfold Update, HasChanged; simpl.
  change (VersionKeys _) with (item_keys latestItems).
  by destruct (keyChecker_of _ _).
Qed.

(** C7: for key lists A (baseline) and B of equal length with the same
    multiset of keys, the order-insensitive detector (the default, chosen by
    a nil generator) reports "unchanged"; when moreover A and B differ, that
    is, differ only in order, the order-sensitive detector reports
    "changed". *)
Theorem order_policies_on_permuted_keys (A B : list string) :
  length A = length B →
  A ≡ₚ B →
  fst (HasChanged (NewChangeChecker A None) B) = false ∧
  (A ≠ B →
   fst (HasChanged (NewChangeChecker A (Some SIMPLE_KEY_CHECKER)) B) = true).
Proof.
  intros Hlen Hperm. rewrite !HasChanged_fst. simpl. split.
  - apply negb_false_iff, DEFAULT_KEY_CHECKER_spec. split; [done|].
    intros key Hkey. by rewrite Hperm.
  - intros Hne. apply negb_true_iff, not_true_is_false.
    by rewrite SIMPLE_KEY_CHECKER_spec.
Qed.

Lemma order_policies_on_permuted_keys_witness :
  fst (HasChanged (NewChangeChecker ["x"; "y"] None) ["y"; "x"]) = false ∧
  fst (HasChanged (NewChangeChecker ["x"; "y"] (Some SIMPLE_KEY_CHECKER))
         ["y"; "x"]) = true.
Proof.
  destruct (order_policies_on_permuted_keys ["x"; "y"] ["y"; "x"]) as [Hdef Hsimple];
    [reflexivity | apply perm_swap |].
  split; [exact Hdef | apply Hsimple; discriminate].
Defined.

(** C10: there are a baseline and a current key list of equal length whose
    multisets differ and which the default checker nevertheless accepts as
    matching, so that [HasChanged] reports "unchanged". *)
Theorem default_policy_misses_duplicate_counts :
  ∃ A B : list string,
    length A = length B ∧
    ¬ A ≡ₚ B ∧
    DEFAULT_KEY_CHECKER A B = true ∧
    fst (HasChanged (NewChangeChecker A None) B) = false.
Proof.
  exists ["k1"; "k1"; "k2"], ["k1"; "k2"; "k2"].
  split; [reflexivity|]. split; [|split; vm_compute; reflexivity].
  intros Hperm.
  pose proof (proj1 (Permutation_count_occ String.string_dec _ _) Hperm "k1") as Hcount.
  vm_compute in Hcount. discriminate.
Qed.

(** ** The baseline of a collection *)

(** The comparison function of a collection is the one its constructor
    built: no sequence of updates replaces it. *)
Lemma Update_keeps_dirtyChecker (collection : PullRequestSummaryCollection)
    (latestItems : list PullRequestSummary) :
  dirtyChecker (snd (Update collection latestItems)) = dirtyChecker collection.
Proof. by rewrite Update_eq. Qed.

(** C1, as the code behaves: when [Update] reports "changed" the checker the
    collection points to is the one it pointed to before, and an immediately
    following [Update] with the same items reports "changed" again. *)
Theorem Update_does_not_advance_baseline
    (collection : PullRequestSummaryCollection)
    (latestItems : list PullRequestSummary) :
  fst (Update collection latestItems) = true →
  dirtyChecker (snd (Update collection latestItems)) = dirtyChecker collection ∧
  fst (Update (snd (Update collection latestItems)) latestItems) = true.
Proof.
  intros Hchanged. split; [apply Update_keeps_dirtyChecker|].
  rewrite !Update_eq in *. exact Hchanged.
Qed.

(** The copy [HasChanged] works on does get the regenerated comparison
    function, and either policy regenerated from a key list accepts that key
    list: had the copy been the caller's checker, the next call with the same
    keys would have reported "unchanged". *)
Lemma HasChanged_advances_its_copy `{ChangeCheckableCollection C}
    (cache : ChangeChecker) (items : C) :
  fst (HasChanged cache items) = true →
  keyChecker_of (snd (HasChanged cache items))
    = genKeyChecker cache (VersionKeys items).
Proof.
  unfold HasChanged. by destruct (keyChecker_of cache (VersionKeys items)).
Qed.

Lemma generated_checker_accepts_own_keys (keyList : list string) :
  DEFAULT_KEY_CHECKER keyList keyList = true ∧
  SIMPLE_KEY_CHECKER keyList keyList = true.
Proof.
  split; [by apply DEFAULT_KEY_CHECKER_spec | by apply SIMPLE_KEY_CHECKER_spec].
Qed.

(** The scenario open, open, merged, merged: the fourth fetch is reported as
    changed although it repeats the third. *)
Lemma Update_does_not_advance_baseline_witness :
  let collection := snd (Update (NewPullRequestSummaryCollection [pr_open]) [pr_open]) in
  fst (Update (NewPullRequestSummaryCollection [pr_open]) [pr_open]) = false ∧
  fst (Update collection [pr_merged]) = true ∧
  fst (Update (snd (Update collection [pr_merged])) [pr_merged]) = true.
Proof.
  split; [vm_compute; reflexivity|]. split; [vm_compute; reflexivity|].
  apply (Update_does_not_advance_baseline
           (snd (Update (NewPullRequestSummaryCollection [pr_open]) [pr_open]))
           [pr_merged]).
  vm_compute; reflexivity.
Defined.

(** An empty key list matches an empty baseline under either policy. *)
Lemma empty_against_empty_unchanged :
  fst (HasChanged (NewChangeChecker (@nil string) None) (@nil string)) = false ∧
  fst (HasChanged (NewChangeChecker (@nil string) (Some SIMPLE_KEY_CHECKER))
         (@nil string)) = false.
Proof. split; reflexivity. Qed.

(** A collection that has not been updated since its construction with at
    least one entity reports "changed" when it is emptied. *)
Lemma Update_fresh_to_empty_changed (items : list PullRequestSummary) :
  (0 < length items)%nat →
  fst (Update (NewPullRequestSummaryCollection items) []) = true.
Proof.
  intros Hlen. rewrite Update_eq. simpl.
  apply negb_true_iff, not_true_is_false.
  rewrite DEFAULT_KEY_CHECKER_spec. intros [Hl _]. simpl in Hl.
  change (VersionKeys items) with (item_keys items) in Hl.
  unfold item_keys in Hl. rewrite length_map in Hl. lia.
Qed.

(** C8, as the code behaves: a collection constructed empty and then updated
    to N>0 entities holds those N entities, and emptying it again is reported
    as "unchanged": the comparison still runs against the empty baseline of
    the constructor. *)
Theorem Update_to_empty_after_empty_start (items : list PullRequestSummary) :
  (0 < length items)%nat →
  let collection := snd (Update (NewPullRequestSummaryCollection []) items) in
  fst (Update (NewPullRequestSummaryCollection []) items) = true ∧
  Items collection = items ∧
  fst (Update collection []) = false.
Proof.
  intros Hlen. cbv zeta. rewrite !Update_eq. simpl.
  split; [|split; reflexivity].
  apply negb_true_iff, not_true_is_false.
  rewrite DEFAULT_KEY_CHECKER_spec. intros [Hl _].
  unfold item_keys in Hl. rewrite length_map in Hl. simpl in Hl. lia.
Qed.

Lemma Update_to_empty_after_empty_start_witness :
  (0 < length [pr_open])%nat ∧
  fst (Update (snd (Update (NewPullRequestSummaryCollection []) [pr_open])) []) = false.
Proof.
  split; [simpl; lia|].
  apply (Update_to_empty_after_empty_start [pr_open]). simpl; lia.
Defined.

(** ** One iteration of the polling loop *)

Lemma pullRequests_eq (remote : Remote) (assignedFilterQuery createdFilterQuery : string) :
  pullRequests remote assignedFilterQuery createdFilterQuery =
  match Issues_List remote assignedFilterQuery with
  | inr err => Panicked err
  | inl assignedIssues =>
      match Issues_List remote createdFilterQuery with
      | inr err => Panicked err
      | inl createdIssues =>
          Returned (collect_pull_requests remote assignedIssues [],
                    collect_pull_requests remote createdIssues [])
      end
  end.
Proof.
  unfold pullRequests, get.
  destruct (Issues_List remote assignedFilterQuery); [|reflexivity].
  destruct (Issues_List remote createdFilterQuery); reflexivity.
Qed.

(** An iteration whose fetch panics stops there, with the state untouched. *)
Lemma poll_iteration_panicked (remote : Remote) (now : Time) (st : PollState)
    (err : error) :
  pullRequests remote ASSIGNED_FILTER CREATED_FILTER = Panicked err →
  poll_iteration remote now st = (Panicked err, st).
Proof.
  intros Hfetch. unfold poll_iteration, mbind, Poll_M_bind, lift_Outcome.
  by rewrite Hfetch.
Qed.

(** An iteration whose fetch returns runs to its end: it sends the timestamp,
    updates both collections, and sends the data signal when either update
    reported a change. *)
Lemma poll_iteration_returned (remote : Remote) (now : Time) (st : PollState)
    (assigned created : list PullRequestSummary) :
  pullRequests remote ASSIGNED_FILTER CREATED_FILTER = Returned (assigned, created) →
  poll_iteration remote now st =
  (Returned (),
   {| poller_of :=
        {| LastPolled := LastPolled (poller_of st);
           Username := Username (poller_of st);
           AssignedPullRequests :=
             snd (Update (AssignedPullRequests (poller_of st)) assigned);
           CreatedPullRequests :=
             snd (Update (CreatedPullRequests (poller_of st)) created) |};
      sent :=
        sent st ++
        LatestPollTimestamp now ::
        (if fst (Update (AssignedPullRequests (poller_of st)) assigned)
            || fst (Update (CreatedPullRequests (poller_of st)) created)
         then [NewDataAvailable] else []) |}).
Proof.
  intros Hfetch.
  unfold poll_iteration, mbind, Poll_M_bind, lift_Outcome. rewrite Hfetch.
  unfold send, update_assigned, update_created, mret, Poll_M_ret.
  rewrite !Update_eq. simpl. rewrite ?Update_eq. simpl.
  destruct (negb _ || negb _); simpl; by rewrite <- ?app_assoc.
Qed.

(** What an iteration sends: nothing when the fetch panics, otherwise the
    timestamp, followed by the data signal when an update reported a change. *)
Lemma sent_during_eq (remote : Remote) (now : Time) (st : PollState) :
  sent_during remote now st =
  match pullRequests remote ASSIGNED_FILTER CREATED_FILTER with
  | Panicked _ => []
  | Returned (assigned, created) =>
      LatestPollTimestamp now ::
      (if fst (Update (AssignedPullRequests (poller_of st)) assigned)
          || fst (Update (CreatedPullRequests (poller_of st)) created)
       then [NewDataAvailable] else [])
  end.
Proof.
  unfold sent_during.
  destruct (pullRequests remote ASSIGNED_FILTER CREATED_FILTER)
    as [[assigned created]|err] eqn:Hfetch.
  - rewrite (poll_iteration_returned _ _ _ _ _ Hfetch). simpl.
    apply drop_app_length.
  - rewrite (poll_iteration_panicked _ _ _ _ Hfetch). simpl.
    apply drop_all.
Qed.


(** C5: in an iteration that runs to its end, the data signal is among the
    notifications sent during the iteration exactly when one of the two
    [Update] calls returned true, and it is sent at most once. *)
Theorem data_signal_iff_an_update_changed
    (remote : Remote) (now : Time) (st st' : PollState) :
  poll_iteration remote now st = (Returned (), st') →
  ∃ assigned created,
    pullRequests remote ASSIGNED_FILTER CREATED_FILTER = Returned (assigned, created) ∧
    (NewDataAvailable ∈ sent_during remote now st ↔
     fst (Update (AssignedPullRequests (poller_of st)) assigned) = true ∨
     fst (Update (CreatedPullRequests (poller_of st)) created) = true) ∧
    (length (filter (λ n, n = NewDataAvailable) (sent_during remote now st)) ≤ 1)%nat.
Proof.
  intros Hiter.
  destruct (pullRequests remote ASSIGNED_FILTER CREATED_FILTER)
    as [[assigned created]|err] eqn:Hfetch.
  - exists assigned, created. split; [reflexivity|].
    rewrite sent_during_eq, Hfetch.
    destruct (fst (Update (AssignedPullRequests (poller_of st)) assigned)),
             (fst (Update (CreatedPullRequests (poller_of st)) created)); simpl;
      (split; [|vm_compute; lia]).
    1-3: split; [auto | intros _; rewrite !elem_of_cons; auto].
    rewrite elem_of_cons, elem_of_nil.
    split; [intros [[=]|[]] | intros [[=]|[=]]].
  - rewrite (poll_iteration_panicked _ _ _ _ Hfetch) in Hiter. discriminate.
Qed.

Lemma data_signal_iff_an_update_changed_witness :
  sent_during remote_merged 63800000400%Z st_open
    = [LatestPollTimestamp 63800000400%Z; NewDataAvailable] ∧
  ∃ assigned created,
    pullRequests remote_merged ASSIGNED_FILTER CREATED_FILTER
      = Returned (assigned, created) ∧
    (NewDataAvailable ∈ sent_during remote_merged 63800000400%Z st_open ↔
     fst (Update (AssignedPullRequests (poller_of st_open)) assigned) = true ∨
     fst (Update (CreatedPullRequests (poller_of st_open)) created) = true) ∧
    (length (filter (λ n, n = NewDataAvailable)
               (sent_during remote_merged 63800000400%Z st_open)) ≤ 1)%nat.
Proof.
  split; [vm_compute; reflexivity|].
  apply (data_signal_iff_an_update_changed remote_merged 63800000400%Z st_open
           (snd (poll_iteration remote_merged 63800000400%Z st_open))).
  vm_compute; reflexivity.
Defined.

(** C6: the notifications of an iteration are appended to those sent before,
    and among them every timestamp notification comes strictly before the
    data signal; an iteration sending both sends the timestamp first. *)
Theorem timestamp_precedes_data_signal (remote : Remote) (now : Time) (st : PollState) :
  sent (snd (poll_iteration remote now st)) = (sent st ++ sent_during remote now st)%list ∧
  ∀ (i j : nat) (t : Time),
    sent_during remote now st !! i = Some NewDataAvailable →
    sent_during remote now st !! j = Some (LatestPollTimestamp t) →
    (j < i)%nat.
Proof.
  rewrite sent_during_eq.
  destruct (pullRequests remote ASSIGNED_FILTER CREATED_FILTER)
    as [[assigned created]|err] eqn:Hfetch.
  - rewrite (poll_iteration_returned _ _ _ _ _ Hfetch). simpl.
    split; [reflexivity|].
    intros i j t.
    destruct (_ || _); destruct i as [|[|i]], j as [|[|j]]; simpl;
      intros Hi Hj; try discriminate; lia.
  - rewrite (poll_iteration_panicked _ _ _ _ Hfetch). simpl.
    split; [by rewrite app_nil_r|]. intros i j t Hi. by destruct i.
Qed.

Lemma timestamp_precedes_data_signal_witness :
  sent_during remote_merged 63800000400%Z st_open !! 1%nat = Some NewDataAvailable ∧
  sent_during remote_merged 63800000400%Z st_open !! 0%nat
    = Some (LatestPollTimestamp 63800000400%Z) ∧
  (0 < 1)%nat.
Proof.
  assert (sent_during remote_merged 63800000400%Z st_open !! 1%nat
          = Some NewDataAvailable) as Hdata by (vm_compute; reflexivity).
  assert (sent_during remote_merged 63800000400%Z st_open !! 0%nat
          = Some (LatestPollTimestamp 63800000400%Z)) as Hstamp
    by (vm_compute; reflexivity).
  split; [exact Hdata|]. split; [exact Hstamp|].
  exact (proj2 (timestamp_precedes_data_signal remote_merged 63800000400%Z st_open)
           1%nat 0%nat 63800000400%Z Hdata Hstamp).
Defined.

(** ** The version key *)

Lemma versionKey_same_key_fields (pr1 pr2 : PullRequestSummary) :
  same_key_fields pr1 pr2 → versionKey pr1 = versionKey pr2.
Proof.
  intros (Hrepo & Hid & Hstatus & Hdraft). unfold versionKey.
  by rewrite Hrepo, Hid, Hstatus, Hdraft.
Qed.

Lemma item_keys_same_key_fields (items1 items2 : list PullRequestSummary) :
  Forall2 same_key_fields items1 items2 → item_keys items1 = item_keys items2.
Proof.
  induction 1 as [|pr1 pr2 rest1 rest2 Hhead _ IH]; simpl; [reflexivity|].
  by rewrite (versionKey_same_key_fields _ _ Hhead), IH.
Qed.

(** A freshly built collection reports "unchanged" for any items carrying
    the keys it was built from. *)
Lemma Update_fresh_same_keys (items latestItems : list PullRequestSummary) :
  item_keys latestItems = item_keys items →
  fst (Update (NewPullRequestSummaryCollection items) latestItems) = false.
Proof.
  intros Hkeys. rewrite Update_eq. simpl.
  change (VersionKeys items) with (item_keys items). rewrite Hkeys.
  apply negb_false_iff, DEFAULT_KEY_CHECKER_spec. auto.
Qed.

(** C9: the version key is a function of repository, id, status and draft
    flag alone.  Item lists that agree entity by entity on these four fields
    have the same keys whatever their other fields hold; every collection
    gives both the same [Update] verdict; a collection built from one reports
    "unchanged" for the other; and an iteration fetching one sends exactly the
    notifications it would send fetching the other. *)
Theorem versionKey_allow_list
    (assigned1 assigned2 created1 created2 : list PullRequestSummary) :
  Forall2 same_key_fields assigned1 assigned2 →
  Forall2 same_key_fields created1 created2 →
  (∀ pr, versionKey pr =
         Repository pr +:+ ":" +:+ ID pr +:+ ":" +:+ Status pr +:+ ":" +:+
         (if Draft pr then "Y" else "N")) ∧
  item_keys assigned1 = item_keys assigned2 ∧
  (∀ collection,
     fst (Update collection assigned1) = fst (Update collection assigned2)) ∧
  fst (Update (NewPullRequestSummaryCollection assigned1) assigned2) = false ∧
  (∀ remote1 remote2 now st,
     pullRequests remote1 ASSIGNED_FILTER CREATED_FILTER = Returned (assigned1, created1) →
     pullRequests remote2 ASSIGNED_FILTER CREATED_FILTER = Returned (assigned2, created2) →
     sent_during remote1 now st = sent_during remote2 now st).
Proof.
  intros Hassigned%item_keys_same_key_fields Hcreated%item_keys_same_key_fields.
  split; [reflexivity|]. split; [exact Hassigned|]. split; [|split].
  - intros collection. by rewrite !Update_eq, Hassigned.
  - by apply Update_fresh_same_keys.
  - intros remote1 remote2 now st Hfetch1 Hfetch2.
    rewrite !sent_during_eq, Hfetch1, Hfetch2, !Update_eq. simpl.
    by rewrite Hassigned, Hcreated.
Qed.

Lemma versionKey_allow_list_witness :
  Title pr_open ≠ Title pr_retitled ∧
  item_keys [pr_open] = item_keys [pr_retitled] ∧
  fst (Update (NewPullRequestSummaryCollection [pr_open]) [pr_retitled]) = false.
Proof.
  assert (Forall2 same_key_fields [pr_open] [pr_retitled]) as Hsame
    by (repeat constructor).
  destruct (versionKey_allow_list [pr_open] [pr_retitled] [] [] Hsame
              (List.Forall2_nil _)) as (_ & Hkeys & _ & Hfresh & _).
  split; [discriminate|]. split; [exact Hkeys | exact Hfresh].
Defined.

(** ** The controller *)

(** C3, as the code behaves: on a data signal with both collections
    non-empty, the created table is left as it was, and the assigned table is
    written twice, first with the assigned collection and then, over it, with
    the created collection. *)
Theorem data_signal_writes_assigned_table_twice
    (now : Time) (tuiController : Controller) (ghPoller : Poller) :
  Items (AssignedPullRequests ghPoller) ≠ [] →
  Items (CreatedPullRequests ghPoller) ≠ [] →
  createdPRTable (on_NewDataAvailable now tuiController ghPoller)
    = createdPRTable tuiController ∧
  assignedPRTable (on_NewDataAvailable now tuiController ghPoller)
    = Table_Update now
        (Table_Update now (assignedPRTable tuiController)
           (mkPullRequestCollection (Items (AssignedPullRequests ghPoller))))
        (mkPullRequestCollection (Items (CreatedPullRequests ghPoller))).
Proof.
  intros Hassigned Hcreated. unfold on_NewDataAvailable, Controller_Update. simpl.
  destruct (Items (AssignedPullRequests ghPoller)); [done|].
  destruct (Items (CreatedPullRequests ghPoller)); [done|].
  split; reflexivity.
Qed.

(** With "a"/1 assigned and "b"/7 created: the first row of the assigned
    table shows "b", and the created table has no first row. *)
Lemma data_signal_writes_assigned_table_twice_witness :
  Repository <$> Items (AssignedPullRequests poller_merged) = ["a"] ∧
  Repository <$> Items (CreatedPullRequests poller_merged) = ["b"] ∧
  createdPRTable (on_NewDataAvailable 63800000400%Z controller_open poller_merged)
    = createdPRTable controller_open ∧
  Text <$> Primitive (createdPRTable
             (on_NewDataAvailable 63800000400%Z controller_open poller_merged))
           !! (1%nat, 0%nat) = None ∧
  Text <$> Primitive (assignedPRTable
             (on_NewDataAvailable 63800000400%Z controller_open poller_merged))
           !! (1%nat, 0%nat) = Some (Plain "b").
Proof.
  split; [vm_compute; reflexivity|]. split; [vm_compute; reflexivity|].
  split; [|split; vm_compute; reflexivity].
  apply (data_signal_writes_assigned_table_twice 63800000400%Z controller_open
           poller_merged); vm_compute; discriminate.
Defined.

(** A state without the created list leaves the created table alone, as does
    every other state. *)
Lemma Controller_Update_createdPRTable (now : Time) (tui : Controller) (newState : State) :
  createdPRTable (Controller_Update now tui newState) = createdPRTable tui.
Proof.
  unfold Controller_Update.
  destruct (0 <? length (Assigned newState))%nat,
           (0 <? length (Created newState))%nat; reflexivity.
Qed.

(** A state without the assigned list still rewrites the assigned table when
    it carries a created list. *)
Lemma Controller_Update_absent_Assigned (now : Time) (tui : Controller) (newState : State) :
  Assigned newState = [] →
  Created newState ≠ [] →
  assignedPRTable (Controller_Update now tui newState)
    = Table_Update now (assignedPRTable tui)
        (mkPullRequestCollection (Created newState)).
Proof.
  intros Hassigned Hcreated. unfold Controller_Update. rewrite Hassigned. simpl.
  by destruct (Created newState).
Qed.

(** A timestamp signal leaves both tables alone. *)
Lemma on_LatestPollTimestamp_tables (now : Time) (tui : Controller) (latestTimestamp : Time) :
  assignedPRTable (on_LatestPollTimestamp now tui latestTimestamp) = assignedPRTable tui ∧
  createdPRTable (on_LatestPollTimestamp now tui latestTimestamp) = createdPRTable tui.
Proof. split; reflexivity. Qed.

(** C4, as the code behaves: a state whose [LastSync] is absent (the zero
    time) rewrites the status bar with the zero time; on a controller built by
    [NewController] the text then reads "00:00:00" as the time of the last
    synchronisation. *)
Theorem absent_LastSync_rewrites_status_bar
    (now : Time) (state newState : State) :
  LastSync newState = zero_Time →
  StatusText (statusBar (Controller_Update now (NewController now state) newState))
    = status_text (GithubUsername state) (PollInterval state) zero_Time ∧
  Format_timestamp zero_Time = "00:00:00".
Proof.
  intros Habsent. split; [|reflexivity].
  unfold Controller_Update.
  destruct (0 <? length (Assigned newState))%nat,
           (0 <? length (Created newState))%nat; simpl; by rewrite Habsent.
Qed.

(** The controller of [app] after its first data signal: the status bar read
    "22:15:00" before and reads "00:00:00" after. *)
Lemma absent_LastSync_rewrites_status_bar_witness :
  StatusText (statusBar controller_open)
    = status_text "ann" 5 63800000100%Z ∧
  Format_timestamp 63800000100%Z = "22:15:00" ∧
  StatusText (statusBar (on_NewDataAvailable 63800000100%Z controller_open poller_merged))
    = status_text "ann" 5 0%Z ∧
  StatusText (statusBar (on_NewDataAvailable 63800000100%Z controller_open poller_merged))
    ≠ StatusText (statusBar controller_open).
Proof.
  split; [reflexivity|]. split; [vm_compute; reflexivity|].
  assert (StatusText (statusBar
            (on_NewDataAvailable 63800000100%Z controller_open poller_merged))
          = status_text "ann" 5 0%Z) as Hafter.
  { apply (absent_LastSync_rewrites_status_bar 63800000100%Z
             {| GithubUsername := Username poller_open; PollInterval := 5%Z;
                Assigned := Items (AssignedPullRequests poller_open);
                Created := Items (CreatedPullRequests poller_open);
                LastSync := LastPolled poller_open |}
             {| GithubUsername := ""; PollInterval := 0%Z;
                Assigned := Items (AssignedPullRequests poller_merged);
                Created := Items (CreatedPullRequests poller_merged);
                LastSync := zero_Time |}).
    reflexivity. }
  split; [exact Hafter|].
  rewrite Hafter. vm_compute. discriminate.
Defined.

(** ** The loop as a whole *)

(** A poller built while "a"/1 is open, polled three times (open, merged,
    merged) and then cancelled: the loop returns; the second and the third
    iteration both send the data signal. *)
Lemma Poll_open_merged_merged :
  NewPoller (inl "ann") remote_open 63800000100%Z = Returned poller_open ∧
  let '(outcome, st) :=
    Poll [TimerElapsed remote_open 63800000400%Z;
          TimerElapsed remote_only_merged 63800000700%Z;
          TimerElapsed remote_only_merged 63800001000%Z;
          CtxDone] st_open in
  outcome = Returned true ∧
  sent st = [LatestPollTimestamp 63800000400%Z;
             LatestPollTimestamp 63800000700%Z; NewDataAvailable;
             LatestPollTimestamp 63800001000%Z; NewDataAvailable].
Proof. split; [reflexivity | vm_compute; split; reflexivity]. Qed.

(** * Further properties of the code *)

(** ** The comparison policies, completely *)

(** X1: a checker built with a nil generator uses the default policy: it
    reports "unchanged" exactly when the current key list has the length of
    the baseline and each of its keys occurs in the baseline. *)
Theorem default_verdict_iff (A B : list string) :
  fst (HasChanged (NewChangeChecker A None) B) = false ↔
  length B = length A ∧ ∀ key, key ∈ B → key ∈ A.
Proof.
  rewrite HasChanged_fst, negb_false_iff. simpl.
  apply DEFAULT_KEY_CHECKER_spec.
Qed.

(** X2: a checker built with the simple policy reports "unchanged" exactly
    when the current key list is the baseline, key for key. *)
Theorem simple_verdict_iff (A B : list string) :
  fst (HasChanged (NewChangeChecker A (Some SIMPLE_KEY_CHECKER)) B) = false ↔
  A = B.
Proof.
  rewrite HasChanged_fst, negb_false_iff. simpl.
  apply SIMPLE_KEY_CHECKER_spec.
Qed.

(** X3: on a current key list without duplicates the default policy is exact:
    it reports "unchanged" exactly when the current list is a reordering of
    the baseline. *)
Theorem default_verdict_exact_without_duplicates (A B : list string) :
  NoDup B →
  fst (HasChanged (NewChangeChecker A None) B) = false ↔ A ≡ₚ B.
Proof.
  intros Hnodup. rewrite HasChanged_fst, negb_false_iff. simpl.
  rewrite DEFAULT_KEY_CHECKER_spec. cbv [VersionKeys keys_checkable]. split.
  - intros [Hlen Hsub]. symmetry.
    apply NoDup_Permutation_bis.
    + by apply NoDup_ListNoDup.
    + lia.
    + intros key Hkey. apply list_elem_of_In, Hsub, list_elem_of_In, Hkey.
  - intros Hperm. split; [by rewrite Hperm|].
    intros key Hkey. by rewrite Hperm.
Qed.

Lemma default_verdict_exact_without_duplicates_witness :
  NoDup ["x"; "y"] ∧
  (fst (HasChanged (NewChangeChecker ["y"; "x"] None) ["x"; "y"]) = false ↔
   ["y"; "x"] ≡ₚ ["x"; "y"]).
Proof.
  assert (NoDup ["x"; "y"]) as Hnodup.
  { apply NoDup_ListNoDup. repeat constructor; simpl; intuition discriminate. }
  split; [exact Hnodup|].
  exact (default_verdict_exact_without_duplicates ["y"; "x"] ["x"; "y"] Hnodup).
Defined.

(** ** The version key, read backwards *)

Lemma split_at_first_colon (a a' r r' : string) :
  has_colon a = false →
  has_colon a' = false →
  a +:+ ":" +:+ r = a' +:+ ":" +:+ r' →
  a = a' ∧ r = r'.
Proof.
  revert a'. induction a as [|c a IH]; intros [|c' a']; cbn.
  - intros _ _ [= Hr]. done.
  - intros _ [Hc _]%orb_false_elim [= <- _]. done.
  - intros [Hc _]%orb_false_elim _ [= -> _]. done.
  - intros [_ Ha]%orb_false_elim [_ Ha']%orb_false_elim [= -> Hrest].
    destruct (IH a' Ha Ha' Hrest) as [-> ->]. done.
Qed.

Lemma split_before_draft_flag (s s' : string) (d d' : bool) :
  s +:+ ":" +:+ (if d then "Y" else "N") = s' +:+ ":" +:+ (if d' then "Y" else "N") →
  s = s' ∧ d = d'.
Proof.
  revert s'. induction s as [|c s IH]; intros [|c' s']; cbn.
  - by destruct d, d'.
  - intros [= <- Hrest]. destruct d, s' as [|? [|? ?]]; discriminate.
  - intros [= -> Hrest]. destruct d', s as [|? [|? ?]]; discriminate.
  - intros [= -> Hrest]. destruct (IH s' Hrest) as [-> ->]. done.
Qed.

(** X4: when the repository and the id of two entities hold no colon, equal
    version keys mean equal repository, id, status and draft flag: entities
    that differ in one of the four are never confused. *)
Theorem versionKey_injective_without_colon (pr1 pr2 : PullRequestSummary) :
  has_colon (Repository pr1) = false → has_colon (ID pr1) = false →
  has_colon (Repository pr2) = false → has_colon (ID pr2) = false →
  versionKey pr1 = versionKey pr2 →
  same_key_fields pr1 pr2.
Proof.
  intros Hrepo1 Hid1 Hrepo2 Hid2 Hkey. unfold versionKey in Hkey.
  apply split_at_first_colon in Hkey as [Hrepo Hkey]; [|done..].
  apply split_at_first_colon in Hkey as [Hid Hkey]; [|done..].
  apply split_before_draft_flag in Hkey as [Hstatus Hdraft].
  done.
Qed.

Lemma versionKey_injective_without_colon_witness :
  versionKey pr_open = versionKey pr_retitled ∧ same_key_fields pr_open pr_retitled.
Proof.
  assert (versionKey pr_open = versionKey pr_retitled) as Hkey by reflexivity.
  split; [exact Hkey|].
  apply (versionKey_injective_without_colon pr_open pr_retitled);
    [reflexivity | reflexivity | reflexivity | reflexivity | exact Hkey].
Defined.

(** With a colon in those fields two different entities can share a key. *)
Lemma versionKey_collision_with_colon :
  ∃ pr1 pr2 : PullRequestSummary,
    Repository pr1 ≠ Repository pr2 ∧ versionKey pr1 = versionKey pr2.
Proof.
  exists (mkPullRequestSummary false "" "" "a:b" "c" 0%Z "open" 0%Z ""),
         (mkPullRequestSummary false "" "" "a" "b:c" 0%Z "open" 0%Z "").
  split; [discriminate | reflexivity].
Qed.

(** ** What a fetch brings back *)

Lemma collect_pull_requests_eq (remote : Remote) (issues : list Issue)
    (collection : list PullRequestSummary) :
  collect_pull_requests remote issues collection
  = (collection ++ omap (summary_of_issue remote) issues)%list.
Proof.
  revert collection. induction issues as [|issue rest IH]; intros collection; simpl.
  - by rewrite app_nil_r.
  - rewrite IH. unfold summary_of_issue.
    destruct (IsPullRequest issue); [|reflexivity].
    destruct (PullRequests_Get remote _ _ _); [|reflexivity].
    by rewrite <- app_assoc.
Qed.

Lemma summaries_have_no_reviewers (remote : Remote) (issues : list Issue) :
  Forall (λ pr, ReviewerCount pr = 0%Z) (omap (summary_of_issue remote) issues).
Proof.
  induction issues as [|issue rest IH]; simpl; [constructor|].
  unfold summary_of_issue at 1.
  destruct (IsPullRequest issue); [|exact IH].
  destruct (PullRequests_Get remote _ _ _); [|exact IH].
  constructor; [reflexivity | exact IH].
Qed.

(** X5: when both list requests succeed, each fetched collection holds, in
    the order of the listing, one summary per listed issue that is a pull
    request and whose second request succeeded; issues that are not pull
    requests and pull requests whose second request failed are left out. *)
Theorem pullRequests_keeps_listed_pull_requests
    (remote : Remote) (assignedFilterQuery createdFilterQuery : string)
    (assignedIssues createdIssues : list Issue) :
  Issues_List remote assignedFilterQuery = inl assignedIssues →
  Issues_List remote createdFilterQuery = inl createdIssues →
  pullRequests remote assignedFilterQuery createdFilterQuery
  = Returned (omap (summary_of_issue remote) assignedIssues,
              omap (summary_of_issue remote) createdIssues).
Proof.
  intros Hassigned Hcreated.
  rewrite pullRequests_eq, Hassigned, Hcreated.
  by rewrite !collect_pull_requests_eq.
Qed.

Lemma pullRequests_keeps_listed_pull_requests_witness :
  pullRequests remote_mixed ASSIGNED_FILTER CREATED_FILTER
  = Returned (omap (summary_of_issue remote_mixed) issues_mixed, []) ∧
  Repository <$> omap (summary_of_issue remote_mixed) issues_mixed = ["a"; "d"].
Proof.
  split; [|vm_compute; reflexivity].
  apply (pullRequests_keeps_listed_pull_requests remote_mixed
           ASSIGNED_FILTER CREATED_FILTER issues_mixed []); reflexivity.
Defined.

(** Every summary a fetch brings back has a reviewer count of zero. *)
Lemma pullRequests_ReviewerCount
    (remote : Remote) (assignedFilterQuery createdFilterQuery : string)
    (assigned created : list PullRequestSummary) :
  pullRequests remote assignedFilterQuery createdFilterQuery
    = Returned (assigned, created) →
  Forall (λ pr, ReviewerCount pr = 0%Z) assigned ∧
  Forall (λ pr, ReviewerCount pr = 0%Z) created.
Proof.
  rewrite pullRequests_eq.
  destruct (Issues_List remote assignedFilterQuery) as [assignedIssues|]; [|done].
  destruct (Issues_List remote createdFilterQuery) as [createdIssues|]; [|done].
  rewrite !collect_pull_requests_eq. intros [= <- <-].
  split; apply summaries_have_no_reviewers.
Qed.




(** X7: a poller built by [NewPoller] compares against what it fetched at
    construction: an iteration in which the service answers as it did then
    sends the timestamp and nothing else. *)
Theorem NewPoller_then_same_answer_is_quiet
    (login : string) (remote : Remote) (now now' : Time) (poller : Poller)
    (earlier : list Notification) :
  NewPoller (inl login) remote now = Returned poller →
  sent_during remote now' {| poller_of := poller; sent := earlier |}
  = [LatestPollTimestamp now'].
Proof.
  unfold NewPoller, mbind, Outcome_bind. intros Hnew.
  rewrite sent_during_eq.
  destruct (pullRequests remote ASSIGNED_FILTER CREATED_FILTER)
    as [[assigned created]|err]; [|discriminate].
  injection Hnew as <-. simpl.
  by rewrite !Update_fresh_same_keys.
Qed.

Lemma NewPoller_then_same_answer_is_quiet_witness :
  sent_during remote_open 63800000400%Z st_open
  = [LatestPollTimestamp 63800000400%Z].
Proof.
  apply (NewPoller_then_same_answer_is_quiet "ann" remote_open 63800000100%Z).
  reflexivity.
Defined.

(** ** The loop over any number of iterations *)

(** An iteration, whether it returns or panics, leaves the poller's
    [LastPolled], its [Username] and the checkers of both collections alone. *)
Lemma poll_iteration_keeps (remote : Remote) (now : Time) (st : PollState) :
  let poller := poller_of st in
  let poller' := poller_of (snd (poll_iteration remote now st)) in
  LastPolled poller' = LastPolled poller ∧
  Username poller' = Username poller ∧
  dirtyChecker (AssignedPullRequests poller')
    = dirtyChecker (AssignedPullRequests poller) ∧
  dirtyChecker (CreatedPullRequests poller')
    = dirtyChecker (CreatedPullRequests poller).
Proof.
  destruct (pullRequests remote ASSIGNED_FILTER CREATED_FILTER)
    as [[assigned created]|err] eqn:Hfetch.
  - rewrite (poll_iteration_returned _ _ _ _ _ Hfetch). simpl.
    by rewrite !Update_keeps_dirtyChecker.
  - by rewrite (poll_iteration_panicked _ _ _ _ Hfetch).
Qed.

(** What an iteration sends depends on the state it starts from only through
    the two checkers. *)
Lemma sent_during_same_checkers (remote : Remote) (now : Time) (st st' : PollState) :
  dirtyChecker (AssignedPullRequests (poller_of st'))
    = dirtyChecker (AssignedPullRequests (poller_of st)) →
  dirtyChecker (CreatedPullRequests (poller_of st'))
    = dirtyChecker (CreatedPullRequests (poller_of st)) →
  sent_during remote now st' = sent_during remote now st.
Proof.
  intros Hassigned Hcreated. rewrite !sent_during_eq.
  destruct (pullRequests remote ASSIGNED_FILTER CREATED_FILTER)
    as [[assigned created]|err]; [|reflexivity].
  by rewrite !Update_eq, Hassigned, Hcreated.
Qed.

Lemma Poll_cons_TimerElapsed (remote : Remote) (now : Time)
    (rest : list SelectCase) (st : PollState) :
  Poll (TimerElapsed remote now :: rest) st =
  match pullRequests remote ASSIGNED_FILTER CREATED_FILTER with
  | Returned _ => Poll rest (snd (poll_iteration remote now st))
  | Panicked err => (Panicked err, st)
  end.
Proof.
  simpl. unfold mbind, Poll_M_bind.
  destruct (pullRequests remote ASSIGNED_FILTER CREATED_FILTER)
    as [[assigned created]|err] eqn:Hfetch.
  - by rewrite (poll_iteration_returned _ _ _ _ _ Hfetch).
  - by rewrite (poll_iteration_panicked _ _ _ _ Hfetch).
Qed.

(** The notifications of an iteration are appended to those sent before. *)
Lemma poll_iteration_appends (remote : Remote) (now : Time) (st : PollState) :
  sent (snd (poll_iteration remote now st))
  = (sent st ++ sent_during remote now st)%list.
Proof.
  rewrite sent_during_eq.
  destruct (pullRequests remote ASSIGNED_FILTER CREATED_FILTER)
    as [[assigned created]|err] eqn:Hfetch.
  - by rewrite (poll_iteration_returned _ _ _ _ _ Hfetch).
  - rewrite (poll_iteration_panicked _ _ _ _ Hfetch). by rewrite app_nil_r.
Qed.

(** X8: however many iterations the loop runs and however it ends, the
    poller's [LastPolled] and [Username] are those of its construction, and
    both collections still compare against the checkers they started with. *)
Theorem Poll_keeps_LastPolled_and_checkers (cases : list SelectCase) (st : PollState) :
  let poller := poller_of st in
  let poller' := poller_of (snd (Poll cases st)) in
  LastPolled poller' = LastPolled poller ∧
  Username poller' = Username poller ∧
  dirtyChecker (AssignedPullRequests poller')
    = dirtyChecker (AssignedPullRequests poller) ∧
  dirtyChecker (CreatedPullRequests poller')
    = dirtyChecker (CreatedPullRequests poller).
Proof.
  cbv zeta. revert st.
  induction cases as [|[remote now|] rest IH]; intros st; [done| |done].
  rewrite Poll_cons_TimerElapsed.
  destruct (pullRequests remote ASSIGNED_FILTER CREATED_FILTER); [|done].
  destruct (IH (snd (poll_iteration remote now st))) as (-> & -> & -> & ->).
  apply poll_iteration_keeps.
Qed.

(** X10: the notifications of a whole run are those of the iterations it
    enters, in turn, and each iteration sends what it would have sent as the
    first one: earlier iterations have no influence on later ones. *)
Theorem Poll_sends_what_each_iteration_sends_alone
    (cases : list SelectCase) (st : PollState) :
  sent (snd (Poll cases st))
  = (sent st ++
     flat_map (λ iteration, sent_during iteration.1 iteration.2 st)
       (iterations_run cases))%list.
Proof.
  assert (∀ st0 st : PollState,
    dirtyChecker (AssignedPullRequests (poller_of st))
      = dirtyChecker (AssignedPullRequests (poller_of st0)) →
    dirtyChecker (CreatedPullRequests (poller_of st))
      = dirtyChecker (CreatedPullRequests (poller_of st0)) →
    sent (snd (Poll cases st))
    = (sent st ++
       flat_map (λ iteration, sent_during iteration.1 iteration.2 st0)
         (iterations_run cases))%list) as Hgen.
  { intros st0. induction cases as [|[remote now|] rest IH]; intros st' Ha Hc.
    - simpl. by rewrite app_nil_r.
    - rewrite Poll_cons_TimerElapsed. simpl.
      rewrite (sent_during_same_checkers remote now st' st0)
        by (symmetry; assumption).
      pose proof (poll_iteration_appends remote now st') as Hsent.
      pose proof (poll_iteration_keeps remote now st') as (_ & _ & Ha' & Hc').
      destruct (pullRequests remote ASSIGNED_FILTER CREATED_FILTER) eqn:Hfetch.
      + rewrite IH by congruence. rewrite Hsent. by rewrite <- app_assoc.
      + simpl. rewrite sent_during_eq, Hfetch. simpl. by rewrite !app_nil_r.
    - simpl. by rewrite app_nil_r. }
  by apply Hgen.
Qed.

(** ** The table *)

Section table_cells.
Implicit Types (table : TviewTable) (pr : PullRequestSummary).

Lemma set_row_from_lookup_other_row idx colIdx rowContents table row col :
  row ≠ idx →
  set_row_from idx colIdx rowContents table !! (row, col) = table !! (row, col).
Proof.
  intros Hrow. revert colIdx table.
  induction rowContents as [|colVal rest IH]; intros colIdx table; simpl; [done|].
  rewrite IH. unfold SetCell. apply lookup_insert_ne. congruence.
Qed.

Lemma Cells_lookup_other_row now pr idx table row col :
  row ≠ idx →
  Cells now pr idx table !! (row, col) = table !! (row, col).
Proof.
  intros Hrow. unfold Cells, setReference, SetReference, draftRow.
  destruct (Draft pr).
  - rewrite lookup_alter_ne by congruence.
    by apply set_row_from_lookup_other_row.
  - rewrite lookup_alter_ne by congruence. unfold SetCell.
    by rewrite !lookup_insert_ne by congruence.
Qed.

(** The first cell of a row shows the repository and carries the URL; the
    status cell of a draft reads "draft". *)
Lemma Cells_lookup_reference_column now pr idx table :
  Cells now pr idx table !! (idx, REFERENCE_COLUMN)
  = Some {| Text := Plain (Repository pr); Reference := Some (URL pr);
            Expansion := 0 |}.
Proof.
  unfold Cells, setReference, SetReference, draftRow, REFERENCE_COLUMN.
  destruct (Draft pr); simpl; unfold SetCell;
    rewrite lookup_alter_eq, !lookup_insert_ne by (intros [=]; lia);
    by rewrite lookup_insert_eq.
Qed.

Lemma Cells_lookup_status_column now pr idx table :
  Cells now pr idx table !! (idx, 5%nat)
  = Some (NewTableCell (Plain (if Draft pr then "draft" else Status pr))).
Proof.
  unfold Cells, setReference, SetReference, draftRow, REFERENCE_COLUMN.
  destruct (Draft pr); simpl; unfold SetCell, statusCell;
    rewrite lookup_alter_ne, !lookup_insert_ne by (intros [=]; lia);
    by rewrite lookup_insert_eq.
Qed.

Lemma populate_from_lookup_outside now idx pullReqs table row col :
  (row ≤ idx ∨ idx + length pullReqs < row)%nat →
  populate_from now idx pullReqs table !! (row, col) = table !! (row, col).
Proof.
  revert idx table.
  induction pullReqs as [|pullReq rest IH]; intros idx table Hrow; simpl in *; [done|].
  rewrite IH by lia. apply Cells_lookup_other_row. lia.
Qed.

Lemma populate_from_lookup_row now idx pullReqs table i pr col :
  pullReqs !! i = Some pr →
  populate_from now idx pullReqs table !! (idx + 1 + i, col)%nat
  = Cells now pr (idx + 1 + i)%nat
      (populate_from now idx (take i pullReqs) table) !! (idx + 1 + i, col)%nat.
Proof.
  revert idx table i.
  induction pullReqs as [|pullReq rest IH]; intros idx table i Hi; [done|].
  destruct i as [|i]; simpl in *.
  - injection Hi as ->. rewrite populate_from_lookup_outside by lia.
    by rewrite Nat.add_0_r.
  - replace (idx + 1 + S i)%nat with (S idx + 1 + i)%nat by lia.
    by apply IH.
Qed.

Lemma expand_rows_content col rowIdx remaining table key :
  cell_content <$> expand_rows col rowIdx remaining table !! key
  = cell_content <$> table !! key.
Proof.
  revert rowIdx table.
  induction remaining as [|remaining IH]; intros rowIdx table; simpl; [done|].
  rewrite IH. unfold SetExpansion. rewrite lookup_alter.
  case_decide; [|done]. subst key. by destruct (table !! _).
Qed.

(** Every cell lies in a row below the row count. *)
Lemma GetRowCount_above table row col :
  is_Some (table !! (row, col)) → (row < GetRowCount table)%nat.
Proof.
  unfold GetRowCount.
  apply (map_fold_weak_ind
           (λ count table, is_Some (table !! (row, col)) → (row < count)%nat)).
  - rewrite lookup_empty. by intros [? ?].
  - intros key cell m count Hfresh IH.
    rewrite lookup_insert. case_decide as Hkey.
    + subst key. simpl. lia.
    + intros Hsome. specialize (IH Hsome). lia.
Qed.

End table_cells.

Lemma Cells_lookup_reviewers_column (now : Time) (pr : PullRequestSummary)
    (idx : nat) (table : TviewTable) :
  Cells now pr idx table !! (idx, 4%nat)
  = Some (NewTableCell
            (Plain (if Draft pr then "-" else pretty (ReviewerCount pr)))).
Proof.
  unfold Cells, setReference, SetReference, draftRow, REFERENCE_COLUMN.
  destruct (Draft pr); simpl; unfold SetCell, reviewerCountCell;
    rewrite lookup_alter_ne, !lookup_insert_ne by (intros [=]; lia);
    by rewrite lookup_insert_eq.
Qed.

(** X6: every summary a fetch brings back has a reviewer count of zero,
    whatever the service answered; in a table updated with a fetched list the
    reviewers cell (column 4) of its row therefore reads "0", or "-" when the
    pull request is a draft. *)
Theorem fetched_summaries_have_no_reviewers
    (remote : Remote) (assignedFilterQuery createdFilterQuery : string)
    (assigned created pullReqs : list PullRequestSummary)
    (i : nat) (pr : PullRequestSummary) (now : Time) (t : Table) :
  pullRequests remote assignedFilterQuery createdFilterQuery
    = Returned (assigned, created) →
  pullReqs = assigned ∨ pullReqs = created →
  pullReqs !! i = Some pr →
  ReviewerCount pr = 0%Z ∧
  cell_content <$>
    Primitive (Table_Update now t (mkPullRequestCollection pullReqs)) !! (i + 1, 4)%nat
  = Some (Plain (if Draft pr then "-" else "0"), None).
Proof.
  intros Hfetch Hwhich Hi.
  assert (ReviewerCount pr = 0%Z) as Hcount.
  { destruct (pullRequests_ReviewerCount _ _ _ _ _ Hfetch) as [Hassigned Hcreated].
    destruct Hwhich as [->| ->];
      [eapply (proj1 (Forall_lookup _ _) Hassigned) |
       eapply (proj1 (Forall_lookup _ _) Hcreated)]; exact Hi. }
  split; [exact Hcount|].
  unfold Table_Update, expandColumn. cbn [Primitive].
  rewrite expand_rows_content.
  unfold PopulateTable, PullRequestCollection_rows. cbn [PullReqs].
  replace (i + 1)%nat with (0 + 1 + i)%nat by lia.
  rewrite (populate_from_lookup_row _ _ _ _ _ _ _ Hi).
  rewrite Cells_lookup_reviewers_column, Hcount. by destruct (Draft pr).
Qed.

Lemma fetched_summaries_have_no_reviewers_witness :
  Draft <$> Items (AssignedPullRequests poller_with_draft) = [false; true] ∧
  cell_content <$>
    Primitive (Table_Update 63800000400%Z (assignedPRTable controller_open)
                 (mkPullRequestCollection
                    (Items (AssignedPullRequests poller_with_draft))))
      !! (1, 4)%nat
  = Some (Plain "0", None) ∧
  cell_content <$>
    Primitive (Table_Update 63800000400%Z (assignedPRTable controller_open)
                 (mkPullRequestCollection
                    (Items (AssignedPullRequests poller_with_draft))))
      !! (2, 4)%nat
  = Some (Plain "-", None).
Proof.
  assert (pullRequests remote_with_draft ASSIGNED_FILTER CREATED_FILTER
          = Returned (Items (AssignedPullRequests poller_with_draft),
                      Items (CreatedPullRequests poller_with_draft))) as Hfetch
    by (vm_compute; reflexivity).
  split; [vm_compute; reflexivity|]. split.
  - exact (proj2 (fetched_summaries_have_no_reviewers remote_with_draft
             ASSIGNED_FILTER CREATED_FILTER _ _ _ 0
             (NewPullRequestFromAPI (issue_of "a" 1 "open")
                {| GetDraft := false; GetHTMLURL := "https://example.org/pull" |})
             63800000400%Z (assignedPRTable controller_open)
             Hfetch (or_introl eq_refl) eq_refl)).
  - exact (proj2 (fetched_summaries_have_no_reviewers remote_with_draft
             ASSIGNED_FILTER CREATED_FILTER _ _ _ 1
             (NewPullRequestFromAPI (issue_of "b" 7 "open")
                {| GetDraft := true; GetHTMLURL := "https://example.org/pull" |})
             63800000400%Z (assignedPRTable controller_open)
             Hfetch (or_introl eq_refl) eq_refl)).
Defined.

(** X11: after [Table.Update] with a list of pull requests, the row below
    the header for the i-th of them shows its repository in the first cell,
    which carries its URL as reference, and its status cell reads "draft" for
    a draft and the status otherwise. *)
Theorem Table_Update_writes_each_row
    (now : Time) (t : Table) (pullReqs : list PullRequestSummary)
    (i : nat) (pr : PullRequestSummary) :
  pullReqs !! i = Some pr →
  cell_content <$>
    Primitive (Table_Update now t (mkPullRequestCollection pullReqs))
      !! (i + 1, REFERENCE_COLUMN)%nat
  = Some (Plain (Repository pr), Some (URL pr)) ∧
  cell_content <$>
    Primitive (Table_Update now t (mkPullRequestCollection pullReqs))
      !! (i + 1, 5)%nat
  = Some (Plain (if Draft pr then "draft" else Status pr), None).
Proof.
  intros Hi. unfold Table_Update, expandColumn. simpl.
  rewrite !expand_rows_content.
  unfold PopulateTable, PullRequestCollection_rows. simpl.
  replace (i + 1)%nat with (0 + 1 + i)%nat by lia.
  rewrite !(populate_from_lookup_row _ _ _ _ _ _ _ Hi).
  by rewrite Cells_lookup_reference_column, Cells_lookup_status_column.
Qed.

Lemma Table_Update_writes_each_row_witness :
  cell_content <$>
    Primitive (Table_Update 63800000400%Z (assignedPRTable controller_open)
                 (mkPullRequestCollection [pr_merged; pr_other]))
      !! (2, REFERENCE_COLUMN)%nat
  = Some (Plain "b", Some "https://example.org/b/pull/7") ∧
  cell_content <$>
    Primitive (Table_Update 63800000400%Z (assignedPRTable controller_open)
                 (mkPullRequestCollection [pr_merged; pr_other]))
      !! (2, 5)%nat
  = Some (Plain "draft", None).
Proof.
  apply (Table_Update_writes_each_row 63800000400%Z (assignedPRTable controller_open)
           [pr_merged; pr_other] 1 pr_other).
  reflexivity.
Defined.

(** X12: [Table.Update] clears nothing: a row further down than the new list
    reaches keeps the text and the reference it had, so a list that shrinks
    leaves its former last rows on display. *)
Theorem Table_Update_keeps_rows_below
    (now : Time) (t : Table) (pullReqs : list PullRequestSummary) (row col : nat) :
  (length pullReqs < row)%nat →
  cell_content <$>
    Primitive (Table_Update now t (mkPullRequestCollection pullReqs)) !! (row, col)
  = cell_content <$> Primitive t !! (row, col).
Proof.
  intros Hrow. unfold Table_Update, expandColumn. cbn [Primitive].
  rewrite expand_rows_content.
  unfold PopulateTable, PullRequestCollection_rows. cbn [PullReqs].
  rewrite populate_from_lookup_outside by lia.
  by rewrite set_row_from_lookup_other_row by lia.
Qed.

Lemma Table_Update_keeps_rows_below_witness :
  cell_content <$>
    Primitive (Table_Update 63800000700%Z
                 (NewTable 63800000400%Z "Assigned Pull Requests"
                    (mkPullRequestCollection [pr_merged; pr_other]))
                 (mkPullRequestCollection [pr_merged]))
      !! (2, REFERENCE_COLUMN)%nat
  = Some (Plain "b", Some "https://example.org/b/pull/7").
Proof.
  rewrite (Table_Update_keeps_rows_below 63800000700%Z
             (NewTable 63800000400%Z "Assigned Pull Requests"
                (mkPullRequestCollection [pr_merged; pr_other]))
             [pr_merged] 2 REFERENCE_COLUMN) by (simpl; lia).
  vm_compute. reflexivity.
Defined.

Lemma expand_rows_lookup_below (col rowIdx remaining : nat) (table : TviewTable)
    (row c : nat) :
  (row < rowIdx)%nat →
  expand_rows col rowIdx remaining table !! (row, c) = table !! (row, c).
Proof.
  revert rowIdx table.
  induction remaining as [|remaining IH]; intros rowIdx table Hrow; simpl; [done|].
  rewrite IH by lia. unfold SetExpansion.
  apply lookup_alter_ne. intros [= ? ?]. lia.
Qed.

Lemma expand_rows_expanded (col rowIdx remaining : nat) (table : TviewTable)
    (row : nat) (cell : TableCell) :
  (rowIdx ≤ row < rowIdx + remaining)%nat →
  expand_rows col rowIdx remaining table !! (row, col) = Some cell →
  Expansion cell = 1%Z.
Proof.
  revert rowIdx table.
  induction remaining as [|remaining IH]; intros rowIdx table Hrow; simpl; [lia|].
  destruct (decide (row = rowIdx)) as [->|Hne].
  - rewrite expand_rows_lookup_below by lia. unfold SetExpansion.
    rewrite lookup_alter_eq.
    destruct (table !! (rowIdx, col)); simpl; [|done]. by intros [= <-].
  - apply IH. lia.
Qed.

(** X13: after [Table.Update] the title cell (column 3) of every row below
    the header, rows left over from earlier lists included, has expansion
    1. *)
Theorem Table_Update_expands_title_column
    (now : Time) (t : Table) (pullReqs : list PullRequestSummary)
    (row : nat) (cell : TableCell) :
  (1 ≤ row)%nat →
  Primitive (Table_Update now t (mkPullRequestCollection pullReqs))
    !! (row, EXPANDING_TABLE_COLUMN_IDX) = Some cell →
  Expansion cell = 1%Z.
Proof.
  intros Hrow. unfold Table_Update, expandColumn. cbn [Primitive].
  set (table := PopulateTable now (mkPullRequestCollection pullReqs)
                  (set_row_from 0 0 pullRequestColumns (Primitive t))).
  intros Hcell.
  eapply expand_rows_expanded; [|exact Hcell].
  split; [lia|].
  enough (row < GetRowCount table)%nat by lia.
  apply (GetRowCount_above table row EXPANDING_TABLE_COLUMN_IDX).
  apply (fmap_is_Some cell_content).
  rewrite <- (expand_rows_content EXPANDING_TABLE_COLUMN_IDX 1 (GetRowCount table)).
  rewrite Hcell. eauto.
Qed.

Lemma Table_Update_expands_title_column_witness :
  ∃ cell,
    Primitive (Table_Update 63800000400%Z (assignedPRTable controller_open)
                 (mkPullRequestCollection [pr_merged]))
      !! (1%nat, EXPANDING_TABLE_COLUMN_IDX) = Some cell ∧
    Text cell = Plain "Fix the parser" ∧
    Expansion cell = 1%Z.
Proof.
  exists {| Text := Plain "Fix the parser"; Reference := None; Expansion := 1 |}.
  assert (Primitive (Table_Update 63800000400%Z (assignedPRTable controller_open)
                       (mkPullRequestCollection [pr_merged]))
            !! (1%nat, EXPANDING_TABLE_COLUMN_IDX)
          = Some {| Text := Plain "Fix the parser"; Reference := None;
                    Expansion := 1 |}) as Hcell by (vm_compute; reflexivity).
  split; [exact Hcell|]. split; [reflexivity|].
  apply (Table_Update_expands_title_column 63800000400%Z
           (assignedPRTable controller_open) [pr_merged] 1 _ (le_n 1) Hcell).
Defined.

(** ** Selecting a row and opening it *)

Lemma Table_Update_reference_cell
    (now : Time) (t : Table) (pullReqs : list PullRequestSummary)
    (i : nat) (pr : PullRequestSummary) :
  pullReqs !! i = Some pr →
  ∃ cell,
    Primitive (Table_Update now t (mkPullRequestCollection pullReqs))
      !! (i + 1, REFERENCE_COLUMN)%nat = Some cell ∧
    Reference cell = Some (URL pr).
Proof.
  intros Hi.
  assert (cell_content <$>
            Primitive (Table_Update now t (mkPullRequestCollection pullReqs))
              !! (i + 1, REFERENCE_COLUMN)%nat
          = Some (Plain (Repository pr), Some (URL pr))) as Hcontent.
  { unfold Table_Update, expandColumn. cbn [Primitive].
    rewrite expand_rows_content.
    unfold PopulateTable, PullRequestCollection_rows. cbn [PullReqs].
    replace (i + 1)%nat with (0 + 1 + i)%nat by lia.
    rewrite (populate_from_lookup_row _ _ _ _ _ _ _ Hi).
    by rewrite Cells_lookup_reference_column. }
  destruct (Primitive _ !! _) as [cell|]; [|discriminate].
  exists cell. split; [reflexivity|]. by injection Hcontent.
Qed.

(** X14: after [Table.Update], selecting the row of the i-th pull request
    makes its URL the current reference, and the key 'o' then opens that URL
    when it is not empty, handing the event back. *)
Theorem selecting_a_row_then_o_opens_its_URL
    (now : Time) (t : Table) (pullReqs : list PullRequestSummary)
    (i : nat) (pr : PullRequestSummary) :
  pullReqs !! i = Some pr →
  currentRowReference
    (handlerSelection (Table_Update now t (mkPullRequestCollection pullReqs))
       (Z.of_nat i + 1))
  = URL pr ∧
  (URL pr ≠ "" →
   handlerEventKey
     (handlerSelection (Table_Update now t (mkPullRequestCollection pullReqs))
        (Z.of_nat i + 1))
     {| Rune := rune_o |}
   = (Some (URL pr), {| Rune := rune_o |})).
Proof.
  intros Hi.
  destruct (Table_Update_reference_cell now t pullReqs i pr Hi)
    as (cell & Hcell & Href).
  assert (currentRowReference
            (handlerSelection (Table_Update now t (mkPullRequestCollection pullReqs))
               (Z.of_nat i + 1)) = URL pr) as Hselected.
  { unfold handlerSelection. cbn [Primitive].
    pose proof (GetRowCount_above _ _ _ (mk_is_Some _ _ Hcell)) as Hcount.
    destruct (Z.ltb_spec (Z.of_nat i + 1) 1); [lia|].
    destruct (Z.ltb_spec (Z.of_nat (GetRowCount (Primitive
                (Table_Update now t (mkPullRequestCollection pullReqs)))))
                (Z.of_nat i + 1)); [lia|].
    cbn [orb].
    replace (Z.to_nat (Z.of_nat i + 1)) with (i + 1)%nat by lia.
    by rewrite Hcell, Href. }
  split; [exact Hselected|].
  intros Hurl. unfold handlerEventKey. rewrite Hselected. cbn [Rune].
  rewrite Z.eqb_refl. by rewrite bool_decide_eq_true_2.
Qed.

Lemma selecting_a_row_then_o_opens_its_URL_witness :
  currentRowReference
    (handlerSelection
       (Table_Update 63800000400%Z (assignedPRTable controller_open)
          (mkPullRequestCollection [pr_merged; pr_other])) 2)
  = "https://example.org/b/pull/7" ∧
  handlerEventKey
    (handlerSelection
       (Table_Update 63800000400%Z (assignedPRTable controller_open)
          (mkPullRequestCollection [pr_merged; pr_other])) 2)
    {| Rune := rune_o |}
  = (Some "https://example.org/b/pull/7", {| Rune := rune_o |}).
Proof.
  destruct (selecting_a_row_then_o_opens_its_URL 63800000400%Z
              (assignedPRTable controller_open) [pr_merged; pr_other] 1 pr_other
              eq_refl) as [Hselected Hopened].
  split; [exact Hselected | apply Hopened; discriminate].
Defined.

(** X15: selecting the header row, a negative row, or a row at or past the
    row count (the guard lets the row count itself through) leaves no current
    reference, and no key opens anything afterwards. *)
Theorem selecting_outside_the_rows_clears_the_reference
    (t : Table) (row : Z) (evt : EventKey) :
  (row < 1 ∨ Z.of_nat (GetRowCount (Primitive t)) ≤ row)%Z →
  currentRowReference (handlerSelection t row) = "" ∧
  fst (handlerEventKey (handlerSelection t row) evt) = None.
Proof.
  intros Houtside.
  assert (currentRowReference (handlerSelection t row) = "") as Hcleared.
  { unfold handlerSelection. cbn [Primitive].
    destruct ((row <? 1)%Z || (Z.of_nat (GetRowCount (Primitive t)) <? row)%Z)
      eqn:Hguard; [reflexivity|].
    apply orb_false_elim in Hguard as [Hlow%Z.ltb_ge Hhigh%Z.ltb_ge].
    destruct (Primitive t !! (Z.to_nat row, REFERENCE_COLUMN)) as [cell|] eqn:Hcell;
      [|reflexivity].
    pose proof (GetRowCount_above _ _ _ (mk_is_Some _ _ Hcell)). lia. }
  split; [exact Hcleared|].
  unfold handlerEventKey. rewrite Hcleared.
  by destruct (Rune evt =? rune_o)%Z.
Qed.

Lemma selecting_outside_the_rows_clears_the_reference_witness :
  GetRowCount (Primitive (assignedPRTable controller_open)) = 2%nat ∧
  currentRowReference (handlerSelection (assignedPRTable controller_open) 2) = "" ∧
  currentRowReference (handlerSelection (assignedPRTable controller_open) 0) = "".
Proof.
  assert (GetRowCount (Primitive (assignedPRTable controller_open)) = 2%nat)
    as Hcount by (vm_compute; reflexivity).
  split; [exact Hcount|]. split.
  - apply (selecting_outside_the_rows_clears_the_reference
             (assignedPRTable controller_open) 2 {| Rune := rune_o |}).
    right. rewrite Hcount. simpl. lia.
  - apply (selecting_outside_the_rows_clears_the_reference
             (assignedPRTable controller_open) 0 {| Rune := rune_o |}).
    left. lia.
Defined.

(** ** The controller over any number of updates *)

Lemma Controller_Update_statusBar (now : Time) (tui : Controller) (newState : State) :
  statusBar (Controller_Update now tui newState)
  = StatusBar_Update (statusBar tui) (LastSync newState).
Proof.
  unfold Controller_Update.
  destruct (0 <? length (Assigned newState))%nat,
           (0 <? length (Created newState))%nat; reflexivity.
Qed.

Lemma Controller_Update_all_generator (now : Time) (tui : Controller)
    (states : list State) :
  generator (statusBar (Controller_Update_all now tui states))
  = generator (statusBar tui).
Proof.
  unfold Controller_Update_all. revert tui.
  induction states as [|newState rest IH]; intros tui; simpl; [done|].
  by rewrite IH, Controller_Update_statusBar.
Qed.

(** X16: whatever states a controller built by [NewController] is updated
    with, its status bar keeps the user name and the interval it was built
    with and shows the [LastSync] of the state applied last. *)
Theorem status_bar_shows_the_last_LastSync
    (now now' : Time) (state : State) (states : list State) (latest : State) :
  last states = Some latest →
  StatusText (statusBar (Controller_Update_all now' (NewController now state) states))
  = status_text (GithubUsername state) (PollInterval state) (LastSync latest).
Proof.
  change (status_text (GithubUsername state) (PollInterval state) (LastSync latest))
    with (generator (statusBar (NewController now state)) (LastSync latest)).
  generalize (NewController now state). intros tui. revert tui.
  induction states as [|newState rest IH]; intros tui Hlast; [done|].
  destruct rest as [|next rest].
  - injection Hlast as ->. unfold Controller_Update_all. cbn [foldl].
    by rewrite Controller_Update_statusBar.
  - rewrite last_cons_cons in Hlast.
    change (Controller_Update_all now' tui (newState :: next :: rest))
      with (Controller_Update_all now' (Controller_Update now' tui newState)
              (next :: rest)).
    rewrite (IH _ Hlast). by rewrite Controller_Update_statusBar.
Qed.

Lemma status_bar_shows_the_last_LastSync_witness :
  StatusText (statusBar
    (Controller_Update_all 63800000700%Z
       (NewController 63800000100%Z
          {| GithubUsername := "ann"; PollInterval := 5%Z; Assigned := [pr_open];
             Created := []; LastSync := 63800000100%Z |})
       [ {| GithubUsername := ""; PollInterval := 0%Z; Assigned := [pr_merged];
            Created := [pr_other]; LastSync := zero_Time |};
         {| GithubUsername := ""; PollInterval := 0%Z; Assigned := [];
            Created := []; LastSync := 63800000700%Z |} ]))
  = status_text "ann" 5 63800000700%Z.
Proof.
  apply (status_bar_shows_the_last_LastSync 63800000100%Z 63800000700%Z
           {| GithubUsername := "ann"; PollInterval := 5%Z; Assigned := [pr_open];
              Created := []; LastSync := 63800000100%Z |}
           [ {| GithubUsername := ""; PollInterval := 0%Z; Assigned := [pr_merged];
                Created := [pr_other]; LastSync := zero_Time |};
             {| GithubUsername := ""; PollInterval := 0%Z; Assigned := [];
                Created := []; LastSync := 63800000700%Z |} ]
           {| GithubUsername := ""; PollInterval := 0%Z; Assigned := [];
              Created := []; LastSync := 63800000700%Z |}).
  reflexivity.
Defined.

(** X17: no sequence of updates ever writes the created table: it shows what
    [NewController] put there for as long as the controller lives. *)
Theorem created_table_is_never_rewritten
    (now : Time) (tui : Controller) (states : list State) :
  createdPRTable (Controller_Update_all now tui states) = createdPRTable tui.
Proof.
  unfold Controller_Update_all. revert tui.
  induction states as [|newState rest IH]; intros tui; simpl; [done|].
  by rewrite IH, Controller_Update_createdPRTable.
Qed.

(** ** The tray of the mac command *)

Import Mac.

Lemma toggle_loop_after (n : nat) (rest : list ToggleCase) (def : bool) (tray : Tray) :
  toggle_loop (replicate (S n) ToggleAfter ++ ToggleCtxDone :: rest) def tray
  = if (if Nat.even n then def else negb def)
    then {| TrayTitle := "Empty!"; TrayIcon := CircleRegular;
            TrayTooltip := TrayTooltip tray |}
    else {| TrayTitle := "Full!"; TrayIcon := CircleSolid;
            TrayTooltip := TrayTooltip tray |}.
Proof.
  revert def tray. induction n as [|n IH]; intros def tray.
  - reflexivity.
  - change (toggle_loop (replicate (S (S n)) ToggleAfter ++ ToggleCtxDone :: rest)
              def tray)
      with (toggle_loop (replicate (S n) ToggleAfter ++ ToggleCtxDone :: rest)
              (negb def)
              (if def
               then {| TrayTitle := "Empty!"; TrayIcon := CircleRegular;
                       TrayTooltip := TrayTooltip tray |}
               else {| TrayTitle := "Full!"; TrayIcon := CircleSolid;
                       TrayTooltip := TrayTooltip tray |})).
    rewrite IH, Nat.even_succ, <- Nat.negb_even.
    by destruct (Nat.even n), def.
Qed.

(** X18: when the timer of [toggle] has fired k+1 times before the context
    is done, the tray shows "Empty!" with the regular circle for even k and
    "Full!" with the solid circle for odd k, under the tooltip it had; the
    first firing therefore repeats what [onReady] had set. *)
Theorem toggle_alternates (k : nat) (rest : list ToggleCase) (tray : Tray) :
  toggle (replicate (S k) ToggleAfter ++ ToggleCtxDone :: rest) tray
  = {| TrayTitle := if Nat.even k then "Empty!" else "Full!";
       TrayIcon := if Nat.even k then CircleRegular else CircleSolid;
       TrayTooltip := TrayTooltip tray |} ∧
  toggle [ToggleAfter; ToggleCtxDone] onReady_tray = onReady_tray.
Proof.
  split; [|reflexivity].
  unfold toggle. rewrite toggle_loop_after. by destruct (Nat.even k).
Qed.

(** ** The header row *)

Lemma set_row_from_lookup_left (idx colIdx : nat) (rowContents : list string)
    (table : TviewTable) (col : nat) :
  (col < colIdx)%nat →
  set_row_from idx colIdx rowContents table !! (idx, col) = table !! (idx, col).
Proof.
  revert colIdx table.
  induction rowContents as [|colVal rest IH]; intros colIdx table Hcol; simpl; [done|].
  rewrite IH by lia. unfold SetCell. apply lookup_insert_ne. intros [= ?]. lia.
Qed.

Lemma set_row_from_lookup_own (idx colIdx : nat) (rowContents : list string)
    (table : TviewTable) (j : nat) (colVal : string) :
  rowContents !! j = Some colVal →
  set_row_from idx colIdx rowContents table !! (idx, colIdx + j)%nat
  = Some (NewTableCell (Plain colVal)).
Proof.
  revert colIdx table j.
  induction rowContents as [|first rest IH]; intros colIdx table j Hj; [done|].
  destruct j as [|j]; simpl in *.
  - injection Hj as ->. rewrite set_row_from_lookup_left by lia.
    unfold SetCell. rewrite Nat.add_0_r. apply lookup_insert_eq.
  - replace (colIdx + S j)%nat with (S colIdx + j)%nat by lia. by apply IH.
Qed.

(** X19: after [Table.Update] the header row holds the column titles, each
    in a fresh cell without reference and without expansion, whatever the
    table held before and whatever list was given. *)
Theorem Table_Update_rewrites_the_header
    (now : Time) (t : Table) (pullReqs : list PullRequestSummary)
    (col : nat) (title : string) :
  pullRequestColumns !! col = Some title →
  Primitive (Table_Update now t (mkPullRequestCollection pullReqs)) !! (0%nat, col)
  = Some {| Text := Plain title; Reference := None; Expansion := 0 |}.
Proof.
  intros Htitle. unfold Table_Update, expandColumn. cbn [Primitive].
  rewrite expand_rows_lookup_below by lia.
  unfold PopulateTable, PullRequestCollection_rows. cbn [PullReqs].
  rewrite populate_from_lookup_outside by lia.
  exact (set_row_from_lookup_own 0 0 pullRequestColumns (Primitive t) col title Htitle).
Qed.

Lemma Table_Update_rewrites_the_header_witness :
  Primitive (Table_Update 63800000400%Z (assignedPRTable controller_open)
               (mkPullRequestCollection [pr_merged])) !! (0%nat, 5%nat)
  = Some {| Text := Plain "Status"; Reference := None; Expansion := 0 |}.
Proof.
  apply (Table_Update_rewrites_the_header 63800000400%Z
           (assignedPRTable controller_open) [pr_merged] 5 "Status").
  reflexivity.
Defined.

(** ** Building the poller *)

(** X20: [NewPoller] panics exactly when the request for the current user
    fails, or else the list request for the assigned filter fails, or else
    the one for the created filter fails, and it panics with the error of the
    first of these that failed; in every other case it returns a poller. *)
Theorem NewPoller_panics_on_the_first_failure
    (currentUser : string + error) (remote : Remote) (now : Time) (err : error) :
  NewPoller currentUser remote now = Panicked err ↔
  currentUser = inr err ∨
  (∃ login, currentUser = inl login) ∧
  (Issues_List remote ASSIGNED_FILTER = inr err ∨
   (∃ issues, Issues_List remote ASSIGNED_FILTER = inl issues) ∧
   Issues_List remote CREATED_FILTER = inr err).
Proof.
  unfold NewPoller, mbind, Outcome_bind. rewrite pullRequests_eq.
  destruct currentUser as [login|userErr].
  - destruct (Issues_List remote ASSIGNED_FILTER) as [assignedIssues|listErr].
    + destruct (Issues_List remote CREATED_FILTER) as [createdIssues|listErr].
      * split; [done|]. intros [[=]|[_ [[=]|[_ [=]]]]].
      * split.
        -- intros [= ->]. right. split; [eauto|]. right. eauto.
        -- intros [[=]|[_ [[=]|[_ [= ->]]]]]. done.
    + split.
      * intros [= ->]. right. split; [eauto|]. by left.
      * intros [[=]|[_ [[= ->]|[[issues [=]] _]]]]. done.
  - split.
    + intros [= ->]. by left.
    + intros [[= ->]|[[login [=]] _]]. done.
Qed.
